(** * pyppeteer/input.py: keyboard, mouse and touchscreen emulation

    A shallow embedding of [pyppeteer.input] and the properties of its
    three controllers.  The Python objects [Keyboard], [Mouse] and
    [Touchscreen] share one client session and the keyboard's modifier
    state; here they are fields of one [World], threaded through a small
    state-and-exception monad.  Every [self._client.send(...)] and every
    [asyncio.sleep(...)] is appended to the world's [trace], in program
    order. *)

From Stdlib Require Import ZArith String Ascii List Lia SpecFloat.
From stdpp Require Import base option list gmap strings.

Open Scope string_scope.
Open Scope Z_scope.

(** ** Python floats

    A Python [float] is an IEEE 754 binary64 number.  The arithmetic is
    the one of [SpecFloat] at precision 53 and maximal exponent 1024,
    rounding to nearest, ties to even. *)

Module PyFloat.

Definition prec : Z := 53.
Definition emax : Z := 1024.

Definition float : Type := spec_float.

Definition add : float -> float -> float := SFadd prec emax.
Definition sub : float -> float -> float := SFsub prec emax.
Definition mul : float -> float -> float := SFmul prec emax.
Definition div : float -> float -> float := SFdiv prec emax.

(** [float(z)] for an integer literal, correctly rounded. *)
Definition of_Z (z : Z) : float := binary_normalize prec emax z 0 false.

Definition zero : float := S754_zero false.
Definition one : float := S754_finite false 4503599627370496 (-52).
Definition nan : float := S754_nan.

Definition is_finite (f : float) : bool :=
  match f with
  | S754_zero _ | S754_finite _ _ _ => true
  | S754_infinity _ | S754_nan => false
  end.

(** The integer nearest to [m * 2^e], ties to the even one. *)
Definition nearest_even (m : positive) (e : Z) : Z :=
  if 0 <=? e then Z.pos m * 2 ^ e
  else
    let d := 2 ^ (- e) in
    let q := Z.pos m / d in
    let r := Z.pos m mod d in
    match 2 * r ?= d with
    | Lt => q
    | Gt => q + 1
    | Eq => if Z.even q then q else q + 1
    end.

End PyFloat.

Abbreviation float := PyFloat.float.

(** ** Exceptions and the monad of the module

    [PyppeteerError] is what [_keyDescriptionForString] raises for an
    unknown key, [KeyError] is what [set.remove] raises in [Keyboard.up];
    the others come from [round] and from the division of ints. *)

Inductive Exception : Type :=
| PyppeteerError (msg : string)
| KeyError (key : string)
| ValueError (msg : string)
| OverflowError (msg : string)
| ZeroDivisionError (msg : string).

Inductive Result (A : Type) : Type :=
| Return (a : A)
| Raise (e : Exception).

Arguments Return {A} a.
Arguments Raise {A} e.

(** Values found in the parameters of a protocol command. *)
#[warnings="-register-all"]
Inductive Value : Type :=
| VBool (b : bool)
| VInt (z : Z)
| VFloat (f : float)
| VStr (s : string)
| VList (l : list Value)
| VDict (d : list (string * Value)).

(** What the module does to the outside, in order: a command sent over
    the session, or [asyncio.sleep(num / den)]. *)
Inductive Action : Type :=
| Send (method : string) (params : list (string * Value))
| Sleep (num den : Z).

Record KeyboardState : Type := mkKeyboard {
  _modifiers : Z;
  _pressedKeys : gset string
}.

Record MouseState : Type := mkMouse {
  _x : float;
  _y : float;
  _button : string
}.

Record World : Type := mkWorld {
  keyboard : KeyboardState;
  mouse : MouseState;
  trace : list Action
}.

(** The state after the three constructors have run. *)
Definition init : World :=
  {| keyboard := {| _modifiers := 0; _pressedKeys := ∅ |};
     mouse := {| _x := PyFloat.zero; _y := PyFloat.zero; _button := "none" |};
     trace := [] |}.

(** A computation reads and writes the world and returns or raises; an
    exception leaves the world as it was when it was raised. *)
Definition Py (A : Type) : Type := World -> Result A * World.

Definition run {A} (m : Py A) (w : World) : Result A * World := m w.

#[global] Instance Py_ret : MRet Py := fun A a w => (Return a, w).

#[global] Instance Py_bind : MBind Py := fun A B f m w =>
  match m w with
  | (Return a, w') => f a w'
  | (Raise e, w') => (Raise e, w')
  end.

Definition raise {A} (e : Exception) : Py A := fun w => (Raise e, w).

Definition lift {A} (r : Result A) : Py A := fun w => (r, w).

Definition get_keyboard : Py KeyboardState := fun w => (Return (keyboard w), w).
Definition get_mouse : Py MouseState := fun w => (Return (mouse w), w).

Definition put_keyboard (k : KeyboardState) : Py unit := fun w =>
  (Return tt, {| keyboard := k; mouse := mouse w; trace := trace w |}).

Definition put_mouse (m : MouseState) : Py unit := fun w =>
  (Return tt, {| keyboard := keyboard w; mouse := m; trace := trace w |}).

Definition emit (a : Action) : Py unit := fun w =>
  (Return tt, {| keyboard := keyboard w; mouse := mouse w; trace := trace w ++ [a] |}).

(** [await self._client.send(method, params)] *)
Definition send (method : string) (params : list (string * Value)) : Py unit :=
  emit (Send method params).

(** The call [await asyncio.sleep(t)] itself, where [t] is [num / den]
    and has been computed; it is recorded by numerator and denominator. *)
Definition sleep (num den : Z) : Py unit := emit (Sleep num den).

(** [for x in l: body(x)] *)
Fixpoint for_ {A} (l : list A) (body : A -> Py unit) : Py unit :=
  match l with
  | [] => mret tt
  | x :: l' => body x;; for_ l' body
  end.

(** ** Built-ins used by the module *)

(** [round(f)] of a float with no digits argument: an [int], ties to even;
    NaN and the infinities raise. *)
Definition round (f : float) : Result Z :=
  match f with
  | S754_zero _ => Return 0
  | S754_finite s m e => Return (cond_Zopp s (PyFloat.nearest_even m e))
  | S754_nan => Raise (ValueError "cannot convert float NaN to integer")
  | S754_infinity _ => Raise (OverflowError "cannot convert float infinity to integer")
  end.

(** [a / b] on two [int]s: the quotient, correctly rounded to a float. *)
Definition int_true_div (a b : Z) : Result float :=
  let sign z := match z with Zneg _ => true | _ => false end in
  match a, b with
  | _, Z0 => Raise (ZeroDivisionError "division by zero")
  | Z0, _ => Return (S754_zero (sign b))
  | _, _ =>
      match PyFloat.div (S754_finite (sign a) (Z.to_pos (Z.abs a)) 0)
                        (S754_finite (sign b) (Z.to_pos (Z.abs b)) 0) with
      | S754_infinity _ => Raise (OverflowError "integer division result too large for a float")
      | q => Return q
      end
  end.

(** [await asyncio.sleep(num / den)] on two [int]s: the quotient is
    computed first, which raises when it is too large for a float, and
    then the call is made. *)
Definition sleep_quotient (num den : Z) : Py unit :=
  lift (int_true_div num den);; sleep num den.

(** Truth values of [int] and [str], and [d.get(k)] used as a condition. *)
Definition int_truthy (z : Z) : bool := negb (z =? 0).
Definition str_truthy (s : string) : bool := negb (s =? "")%string.

Definition get_truthy {A} (truthy : A -> bool) (o : option A) : option A :=
  match o with
  | Some a => if truthy a then Some a else None
  | None => None
  end.

(** ** The key-layout table

    [pyppeteer.us_keyboard_layout.keyDefinitions] maps a key name to a
    dict with the optional entries below, the ones that
    [_keyDescriptionForString] reads.  The table is a parameter of the
    keyboard. *)

Module Def.
Record t : Type := mk {
  key : option string;
  shiftKey : option string;
  keyCode : option Z;
  shiftKeyCode : option Z;
  code : option string;
  location : option Z;
  text : option string;
  shiftText : option string
}.

(** The truth value of the dict: [False] exactly for the empty one. *)
Definition truthy (d : t) : bool :=
  match d with
  | mk None None None None None None None None => false
  | _ => true
  end.
End Def.

(** The dict that [_keyDescriptionForString] builds and returns. *)
Module Description.
Record t : Type := mk {
  key : string;
  keyCode : Z;
  code : string;
  text : string;
  location : Z
}.

Definition set_key (v : string) (d : t) : t := mk v (keyCode d) (code d) (text d) (location d).
Definition set_keyCode (v : Z) (d : t) : t := mk (key d) v (code d) (text d) (location d).
Definition set_code (v : string) (d : t) : t := mk (key d) (keyCode d) v (text d) (location d).
Definition set_text (v : string) (d : t) : t := mk (key d) (keyCode d) (code d) v (location d).
Definition set_location (v : Z) (d : t) : t := mk (key d) (keyCode d) (code d) (text d) v.
End Description.

(** The options dict of a call, after [options.update(kwargs)], with the
    entries that the module reads. *)
Record Options : Type := mkOptions {
  opt_text : option string;
  opt_delay : option Z;
  opt_steps : option Z;
  opt_button : option string;
  opt_clickCount : option Z
}.

Definition no_options : Options := mkOptions None None None None None.

(** [if 'k' in definition: description['k'] = definition['k']] *)
Definition assign_if_present {A} (o : option A) (set : A -> Description.t -> Description.t)
    (d : Description.t) : Description.t :=
  match o with
  | Some v => set v d
  | None => d
  end.

Module Keyboard.
Section WithLayout.

Variable keyDefinitions : gmap string Def.t.

Definition _modifierBit (key : string) : Z :=
  if (key =? "Alt")%string then 1
  else if (key =? "Control")%string then 2
  else if (key =? "Meta")%string then 4
  else if (key =? "Shift")%string then 8
  else 0.

Definition _keyDescriptionForString (keyString : string) : Py Description.t :=
  self ← get_keyboard;
  let shift := int_truthy (Z.land (_modifiers self) 8) in
  let description := Description.mk "" 0 "" "" 0 in
  match get_truthy Def.truthy (keyDefinitions !! keyString) with
  | None => raise (PyppeteerError ("Unknown key: " +:+ keyString))
  | Some definition =>
      let description := assign_if_present (Def.key definition) Description.set_key description in
      let description :=
        if shift then
          assign_if_present (get_truthy str_truthy (Def.shiftKey definition))
            Description.set_key description
        else description in
      let description :=
        assign_if_present (Def.keyCode definition) Description.set_keyCode description in
      let description :=
        if shift then
          assign_if_present (get_truthy int_truthy (Def.shiftKeyCode definition))
            Description.set_keyCode description
        else description in
      let description := assign_if_present (Def.code definition) Description.set_code description in
      let description :=
        assign_if_present (Def.location definition) Description.set_location description in
      let description :=
        if (String.length (Description.key description) =? 1)%nat
        then Description.set_text (Description.key description) description
        else description in
      let description := assign_if_present (Def.text definition) Description.set_text description in
      let description :=
        if shift then
          assign_if_present (get_truthy str_truthy (Def.shiftText definition))
            Description.set_text description
        else description in
      let description :=
        if int_truthy (Z.land (_modifiers self) (Z.lnot 8))
        then Description.set_text "" description
        else description in
      mret description
  end.

Definition down (key : string) (options : Options) : Py unit :=
  description ← _keyDescriptionForString key;
  self ← get_keyboard;
  let autoRepeat := bool_decide (Description.key description ∈ _pressedKeys self) in
  put_keyboard (mkKeyboard (_modifiers self)
                           (_pressedKeys self ∪ {[Description.code description]}));;
  self ← get_keyboard;
  put_keyboard (mkKeyboard (Z.lor (_modifiers self) (_modifierBit (Description.key description)))
                           (_pressedKeys self));;
  let text := match opt_text options with
              | Some text => text
              | None => Description.text description
              end in
  self ← get_keyboard;
  send "Input.dispatchKeyEvent"
    [("type", VStr (if str_truthy text then "keyDown" else "rawKeyDown"));
     ("modifiers", VInt (_modifiers self));
     ("windowsVirtualKeyCode", VInt (Description.keyCode description));
     ("code", VStr (Description.code description));
     ("key", VStr (Description.key description));
     ("text", VStr text);
     ("unmodifiedText", VStr text);
     ("autoRepeat", VBool autoRepeat);
     ("location", VInt (Description.location description));
     ("isKeypad", VBool (Description.location description =? 3))].

Definition up (key : string) : Py unit :=
  description ← _keyDescriptionForString key;
  self ← get_keyboard;
  put_keyboard (mkKeyboard
                  (Z.land (_modifiers self) (Z.lnot (_modifierBit (Description.key description))))
                  (_pressedKeys self));;
  self ← get_keyboard;
  (if bool_decide (Description.code description ∈ _pressedKeys self)
   then put_keyboard (mkKeyboard (_modifiers self)
                                 (_pressedKeys self ∖ {[Description.code description]}))
   else raise (KeyError (Description.code description)));;
  self ← get_keyboard;
  send "Input.dispatchKeyEvent"
    [("type", VStr "keyUp");
     ("modifiers", VInt (_modifiers self));
     ("key", VStr (Description.key description));
     ("windowsVirtualKeyCode", VInt (Description.keyCode description));
     ("code", VStr (Description.code description));
     ("location", VInt (Description.location description))].

Definition sendCharacter (char : string) : Py unit :=
  self ← get_keyboard;
  send "Input.dispatchKeyEvent"
    [("type", VStr "char");
     ("modifiers", VInt (_modifiers self));
     ("text", VStr char);
     ("key", VStr char);
     ("unmodifiedText", VStr char)].

(** [options.get('delay')] used as a condition. *)
Definition delay_of (options : Options) : option Z :=
  get_truthy int_truthy (opt_delay options).

Definition press (key : string) (options : Options) : Py unit :=
  down key options;;
  match delay_of options with
  | Some delay => sleep_quotient delay 1000
  | None => mret tt
  end;;
  up key.

(** The characters of a [str], each a [str] of length one; a character
    is an [ascii] here. *)
Definition chars (text : string) : list string :=
  (fun c => String c "") <$> list_ascii_of_string text.

Definition type (text : string) (options : Options) : Py unit :=
  let delay := match delay_of options with
               | Some delay => delay
               | None => 0
               end in
  for_ (chars text) (fun char =>
    (if bool_decide (is_Some (keyDefinitions !! "char"))
     then press char (mkOptions None (Some delay) None None None)
     else sendCharacter char);;
    if int_truthy delay then sleep_quotient delay 1000 else mret tt).

End WithLayout.
End Keyboard.

Module Mouse.

(** One coordinate of the [i]-th of [steps] points on the way from
    [origin] to [target]: [round(origin + (target - origin) * (i / steps))]. *)
Definition interpolate (origin target : float) (i steps : Z) : Result Z :=
  match int_true_div i steps with
  | Return t => round (PyFloat.add origin (PyFloat.mul (PyFloat.sub target origin) t))
  | Raise e => Raise e
  end.

(** The body of the loop of [move], at step [i]. *)
Definition move_step (fromX fromY : float) (steps i : Z) : Py unit :=
  self ← get_mouse;
  x ← lift (interpolate fromX (_x self) i steps);
  y ← lift (interpolate fromY (_y self) i steps);
  kb ← get_keyboard;
  send "Input.dispatchMouseEvent"
    [("type", VStr "mouseMoved");
     ("button", VStr (_button self));
     ("x", VInt x);
     ("y", VInt y);
     ("modifiers", VInt (_modifiers kb))].

Definition move (x y : float) (options : Options) : Py unit :=
  self ← get_mouse;
  let fromX := _x self in
  let fromY := _y self in
  put_mouse (mkMouse x (_y self) (_button self));;
  self ← get_mouse;
  put_mouse (mkMouse (_x self) y (_button self));;
  let steps := default 1 (opt_steps options) in
  for_ (seqZ 1 steps) (move_step fromX fromY steps).

(** [options.get('clickCount') or 1] *)
Definition clickCount_of (options : Options) : Z :=
  default 1 (get_truthy int_truthy (opt_clickCount options)).

Definition down (options : Options) : Py unit :=
  self ← get_mouse;
  put_mouse (mkMouse (_x self) (_y self) (default "left" (opt_button options)));;
  self ← get_mouse;
  kb ← get_keyboard;
  send "Input.dispatchMouseEvent"
    [("type", VStr "mousePressed");
     ("button", VStr (_button self));
     ("x", VFloat (_x self));
     ("y", VFloat (_y self));
     ("modifiers", VInt (_modifiers kb));
     ("clickCount", VInt (clickCount_of options))].

Definition up (options : Options) : Py unit :=
  self ← get_mouse;
  put_mouse (mkMouse (_x self) (_y self) "none");;
  self ← get_mouse;
  kb ← get_keyboard;
  send "Input.dispatchMouseEvent"
    [("type", VStr "mouseReleased");
     ("button", VStr (default "left" (opt_button options)));
     ("x", VFloat (_x self));
     ("y", VFloat (_y self));
     ("modifiers", VInt (_modifiers kb));
     ("clickCount", VInt (clickCount_of options))].

Definition click (x y : float) (options : Options) : Py unit :=
  move x y no_options;;
  down options;;
  match get_truthy int_truthy (opt_delay options) with
  | Some delay => sleep delay 1
  | None => mret tt
  end;;
  up options.

End Mouse.

Module Touchscreen.

Definition tap (x y : float) : Py unit :=
  rx ← lift (round x);
  ry ← lift (round y);
  let touchPoints := [VDict [("x", VInt rx); ("y", VInt ry)]] in
  kb ← get_keyboard;
  send "Input.dispatchTouchEvent"
    [("type", VStr "touchStart");
     ("touchPoints", VList touchPoints);
     ("modifiers", VInt (_modifiers kb))];;
  kb ← get_keyboard;
  send "Input.dispatchTouchEvent"
    [("type", VStr "touchEnd");
     ("touchPoints", VList []);
     ("modifiers", VInt (_modifiers kb))].

End Touchscreen.

(** ** A small layout for the examples

    Entries as the US layout has them: a letter under its character and
    under its code name, the two Shift keys, and the generic modifier
    names, which stand for the left-hand key. *)

Definition us_entry (keyCode : Z) (key code : string) (location : option Z) : Def.t :=
  Def.mk (Some key) None (Some keyCode) None (Some code) location None None.

Definition us_layout : gmap string Def.t :=
  list_to_map
    [("a", us_entry 65 "a" "KeyA" None);
     ("KeyA", Def.mk (Some "a") (Some "A") (Some 65) None (Some "KeyA") None None None);
     ("Enter", Def.mk (Some "Enter") None (Some 13) None (Some "Enter") None
                 (Some (String "013" "")) None);
     ("Numpad5", Def.mk (Some "Clear") (Some "5") (Some 12) (Some 101) (Some "Numpad5")
                   (Some 3) None None);
     ("Shift", us_entry 16 "Shift" "ShiftLeft" (Some 1));
     ("ShiftLeft", us_entry 16 "Shift" "ShiftLeft" (Some 1));
     ("ShiftRight", us_entry 16 "Shift" "ShiftRight" (Some 2));
     ("Control", us_entry 17 "Control" "ControlLeft" (Some 1));
     ("Alt", us_entry 18 "Alt" "AltLeft" (Some 1));
     ("Meta", us_entry 91 "Meta" "MetaLeft" (Some 1))].

(** A delay whose thousandth is too large for a float. *)
Definition huge_delay : Z := 10 ^ 312.


(** ** Worlds used in the statements *)

Definition result_map {A B} (f : A -> B) (r : Result A) : Result B :=
  match r with
  | Return a => Return (f a)
  | Raise e => Raise e
  end.

(** The world after [Keyboard.down] has resolved its key to [d]. *)
Definition after_down (d : Description.t) (options : Options) (w : World) : World :=
  let m := Z.lor (_modifiers (keyboard w)) (Keyboard._modifierBit (Description.key d)) in
  let text := default (Description.text d) (opt_text options) in
  {| keyboard := mkKeyboard m (_pressedKeys (keyboard w) ∪ {[Description.code d]});
     mouse := mouse w;
     trace := trace w ++
       [Send "Input.dispatchKeyEvent"
          [("type", VStr (if str_truthy text then "keyDown" else "rawKeyDown"));
           ("modifiers", VInt m);
           ("windowsVirtualKeyCode", VInt (Description.keyCode d));
           ("code", VStr (Description.code d));
           ("key", VStr (Description.key d));
           ("text", VStr text);
           ("unmodifiedText", VStr text);
           ("autoRepeat", VBool (bool_decide (Description.key d ∈ _pressedKeys (keyboard w))));
           ("location", VInt (Description.location d));
           ("isKeypad", VBool (Description.location d =? 3))]] |}.

(** The world after [Keyboard.up] has cleared the modifier bit of [d]. *)
Definition after_clear (d : Description.t) (w : World) : World :=
  {| keyboard := mkKeyboard
       (Z.land (_modifiers (keyboard w)) (Z.lnot (Keyboard._modifierBit (Description.key d))))
       (_pressedKeys (keyboard w));
     mouse := mouse w;
     trace := trace w |}.

(** The world after a [Keyboard.up] that resolved its key to [d] and
    found its code pressed. *)
Definition after_up (d : Description.t) (w : World) : World :=
  let m := Z.land (_modifiers (keyboard w)) (Z.lnot (Keyboard._modifierBit (Description.key d))) in
  {| keyboard := mkKeyboard m (_pressedKeys (keyboard w) ∖ {[Description.code d]});
     mouse := mouse w;
     trace := trace w ++
       [Send "Input.dispatchKeyEvent"
          [("type", VStr "keyUp");
           ("modifiers", VInt m);
           ("key", VStr (Description.key d));
           ("windowsVirtualKeyCode", VInt (Description.keyCode d));
           ("code", VStr (Description.code d));
           ("location", VInt (Description.location d))]] |}.

(** The command that [Keyboard.sendCharacter] sends. *)
Definition char_event (modifiers : Z) (char : string) : Action :=
  Send "Input.dispatchKeyEvent"
    [("type", VStr "char");
     ("modifiers", VInt modifiers);
     ("text", VStr char);
     ("key", VStr char);
     ("unmodifiedText", VStr char)].

(** The command that one step of [Mouse.move] sends. *)
Definition moved_event (button : string) (x y modifiers : Z) : Action :=
  Send "Input.dispatchMouseEvent"
    [("type", VStr "mouseMoved");
     ("button", VStr button);
     ("x", VInt x);
     ("y", VInt y);
     ("modifiers", VInt modifiers)].

(** The two commands that [Touchscreen.tap] sends. *)
Definition touch_start (x y modifiers : Z) : Action :=
  Send "Input.dispatchTouchEvent"
    [("type", VStr "touchStart");
     ("touchPoints", VList [VDict [("x", VInt x); ("y", VInt y)]]);
     ("modifiers", VInt modifiers)].

Definition touch_end (modifiers : Z) : Action :=
  Send "Input.dispatchTouchEvent"
    [("type", VStr "touchEnd");
     ("touchPoints", VList []);
     ("modifiers", VInt modifiers)].

(** ** Closed forms used in the further statements *)

(** The description of a key with entry [def] when the modifiers are
    [m], field by field: a shifted variant counts only under Shift and
    only when it is truthy; the text is empty under any other modifier,
    else the shifted text, else the entry's text, else a label of length
    one. *)
Definition describe (def : Def.t) (m : Z) : Description.t :=
  let under_shift {A} (o : option A) : option A :=
    if int_truthy (Z.land m 8) then o else None in
  let label :=
    default (default "" (Def.key def))
            (under_shift (get_truthy str_truthy (Def.shiftKey def))) in
  let keyCode :=
    default (default 0 (Def.keyCode def))
            (under_shift (get_truthy int_truthy (Def.shiftKeyCode def))) in
  let text :=
    if int_truthy (Z.land m (Z.lnot 8)) then ""
    else match under_shift (get_truthy str_truthy (Def.shiftText def)), Def.text def with
         | Some shifted, _ => shifted
         | None, Some text => text
         | None, None => if (String.length label =? 1)%nat then label else ""
         end in
  Description.mk label keyCode (default "" (Def.code def)) text (default 0 (Def.location def)).

(** The modifiers are a mask over Alt = 1, Control = 2, Meta = 4 and
    Shift = 8. *)
Definition modifiers_in_range (w : World) : Prop :=
  0 <= _modifiers (keyboard w) < 16.

(** The command that [Mouse.down] and [Mouse.up] send. *)
Definition button_event (type button : string) (x y : float) (modifiers clickCount : Z) : Action :=
  Send "Input.dispatchMouseEvent"
    [("type", VStr type);
     ("button", VStr button);
     ("x", VFloat x);
     ("y", VFloat y);
     ("modifiers", VInt modifiers);
     ("clickCount", VInt clickCount)].





(** The world after [Mouse.down] and after [Mouse.up]. *)
Definition after_mouse_down (options : Options) (w : World) : World :=
  let button := default "left" (opt_button options) in
  {| keyboard := keyboard w;
     mouse := mkMouse (_x (mouse w)) (_y (mouse w)) button;
     trace := trace w ++
       [button_event "mousePressed" button (_x (mouse w)) (_y (mouse w))
          (_modifiers (keyboard w)) (Mouse.clickCount_of options)] |}.

Definition after_mouse_up (options : Options) (w : World) : World :=
  {| keyboard := keyboard w;
     mouse := mkMouse (_x (mouse w)) (_y (mouse w)) "none";
     trace := trace w ++
       [button_event "mouseReleased" (default "left" (opt_button options))
          (_x (mouse w)) (_y (mouse w)) (_modifiers (keyboard w))
          (Mouse.clickCount_of options)] |}.

(** The sample layout with a ["char"] entry added. *)
Definition generic_layout : gmap string Def.t :=
  <["char" := Def.mk (Some "char") None None None None None None None]> us_layout.

(** * Properties *)

(** ** The monad *)

Ltac py_unfold :=
  unfold run, mbind, Py_bind, mret, Py_ret, raise, lift, get_keyboard, get_mouse,
    put_keyboard, put_mouse, send, sleep, emit.

Lemma run_bind {A B} (m : Py A) (f : A -> Py B) (w : World) :
  run (m ≫= f) w =
  match run m w with
  | (Return a, w') => run (f a) w'
  | (Raise e, w') => (Raise e, w')
  end.
Proof. reflexivity. Qed.

Lemma run_bind_return {A B} (m : Py A) (f : A -> Py B) (w w' : World) (a : A) :
  run m w = (Return a, w') -> run (m ≫= f) w = run (f a) w'.
Proof. intros H. rewrite run_bind, H. reflexivity. Qed.

Lemma run_bind_raise {A B} (m : Py A) (f : A -> Py B) (w w' : World) (e : Exception) :
  run m w = (Raise e, w') -> run (m ≫= f) w = (Raise e, w').
Proof. intros H. rewrite run_bind, H. reflexivity. Qed.

Lemma sleep_quotient_run (num den : Z) (t : float) (w : World) :
  int_true_div num den = Return t ->
  run (sleep_quotient num den) w
  = (Return tt,
     {| keyboard := keyboard w; mouse := mouse w; trace := trace w ++ [Sleep num den] |}).
Proof. intros H. unfold sleep_quotient. py_unfold. rewrite H. reflexivity. Qed.

Lemma sleep_quotient_raise (num den : Z) (e : Exception) (w : World) :
  int_true_div num den = Raise e ->
  run (sleep_quotient num den) w = (Raise e, w).
Proof. intros H. unfold sleep_quotient. py_unfold. rewrite H. reflexivity. Qed.

Lemma sleep_quotient_cases (num den : Z) (w : World) :
  (exists e, int_true_div num den = Raise e /\ run (sleep_quotient num den) w = (Raise e, w)) \/
  (exists t, int_true_div num den = Return t /\
             run (sleep_quotient num den) w
             = (Return tt,
                {| keyboard := keyboard w; mouse := mouse w;
                   trace := trace w ++ [Sleep num den] |})).
Proof.
  destruct (int_true_div num den) as [t|e] eqn:H.
  - right. exists t. split; [reflexivity|]. apply (sleep_quotient_run _ _ t), H.
  - left. exists e. split; [reflexivity|]. apply sleep_quotient_raise, H.
Qed.

Lemma world_eta (w : World) :
  {| keyboard := keyboard w; mouse := mouse w; trace := trace w |} = w.
Proof. destruct w; reflexivity. Qed.

(** ** Bit masks *)

(** The keys with a modifier bit are the four modifier labels. *)
Lemma modifierBit_nonzero (key : string) :
  Keyboard._modifierBit key <> 0 <->
  key = "Alt" \/ key = "Control" \/ key = "Meta" \/ key = "Shift".
Proof.
  unfold Keyboard._modifierBit.
  destruct (String.eqb_spec key "Alt"); [intuition lia|].
  destruct (String.eqb_spec key "Control"); [intuition lia|].
  destruct (String.eqb_spec key "Meta"); [intuition lia|].
  destruct (String.eqb_spec key "Shift"); [intuition lia|].
  intuition congruence.
Qed.

(** Setting a bit and clearing it again clears it and keeps the others. *)
Lemma lor_land_lnot (m b : Z) : Z.land (Z.lor m b) (Z.lnot b) = Z.land m (Z.lnot b).
Proof.
  rewrite Z.land_lor_distr_l, Z.land_lnot_diag, Z.lor_0_r. reflexivity.
Qed.

Lemma land_lnot_clear (m b : Z) : Z.land (Z.land m (Z.lnot b)) b = 0.
Proof.
  rewrite <- Z.land_assoc, (Z.land_comm (Z.lnot b)), Z.land_lnot_diag, Z.land_0_r.
  reflexivity.
Qed.

Lemma land_lnot_id (m b : Z) : Z.land m b = 0 -> Z.land m (Z.lnot b) = m.
Proof.
  intros H. apply Z.bits_inj'. intros n Hn.
  rewrite Z.land_spec, Z.lnot_spec by assumption.
  assert (Hb : Z.testbit (Z.land m b) n = false) by (rewrite H; apply Z.bits_0).
  rewrite Z.land_spec in Hb.
  destruct (Z.testbit m n), (Z.testbit b n); simpl in *; congruence.
Qed.

Lemma land_lnot_changes (m b : Z) : Z.land m b <> 0 -> Z.land m (Z.lnot b) <> m.
Proof.
  intros H E. apply H. rewrite <- E. apply land_lnot_clear.
Qed.


(** ** Fields of a description under construction *)

Lemma code_assign_key o d :
  Description.code (assign_if_present o Description.set_key d) = Description.code d.
Proof. destruct o; reflexivity. Qed.

Lemma code_assign_keyCode o d :
  Description.code (assign_if_present o Description.set_keyCode d) = Description.code d.
Proof. destruct o; reflexivity. Qed.

Lemma code_assign_code o d :
  Description.code (assign_if_present o Description.set_code d) = default (Description.code d) o.
Proof. destruct o; reflexivity. Qed.

Lemma code_assign_text o d :
  Description.code (assign_if_present o Description.set_text d) = Description.code d.
Proof. destruct o; reflexivity. Qed.

Lemma code_assign_location o d :
  Description.code (assign_if_present o Description.set_location d) = Description.code d.
Proof. destruct o; reflexivity. Qed.

Lemma code_set_text v d : Description.code (Description.set_text v d) = Description.code d.
Proof. reflexivity. Qed.

Lemma code_if (b : bool) d1 d2 :
  Description.code (if b then d1 else d2) = if b then Description.code d1 else Description.code d2.
Proof. destruct b; reflexivity. Qed.

Lemma key_assign_key o d :
  Description.key (assign_if_present o Description.set_key d) = default (Description.key d) o.
Proof. destruct o; reflexivity. Qed.

Lemma key_assign_keyCode o d :
  Description.key (assign_if_present o Description.set_keyCode d) = Description.key d.
Proof. destruct o; reflexivity. Qed.

Lemma key_assign_code o d :
  Description.key (assign_if_present o Description.set_code d) = Description.key d.
Proof. destruct o; reflexivity. Qed.

Lemma key_assign_text o d :
  Description.key (assign_if_present o Description.set_text d) = Description.key d.
Proof. destruct o; reflexivity. Qed.

Lemma key_assign_location o d :
  Description.key (assign_if_present o Description.set_location d) = Description.key d.
Proof. destruct o; reflexivity. Qed.

Lemma key_set_text v d : Description.key (Description.set_text v d) = Description.key d.
Proof. reflexivity. Qed.

Lemma key_if (b : bool) d1 d2 :
  Description.key (if b then d1 else d2) = if b then Description.key d1 else Description.key d2.
Proof. destruct b; reflexivity. Qed.

Lemma if_same {A} (b : bool) (x : A) : (if b then x else x) = x.
Proof. destruct b; reflexivity. Qed.

Create Rewrite HintDb description.
#[local] Hint Rewrite code_assign_key code_assign_keyCode code_assign_code code_assign_text
  code_assign_location code_set_text code_if key_assign_key key_assign_keyCode key_assign_code
  key_assign_text key_assign_location key_set_text key_if @if_same : description.

Lemma truthy_of_key (def : Def.t) (label : string) :
  Def.key def = Some label -> Def.truthy def = true.
Proof. destruct def; simpl; intros ->; reflexivity. Qed.

(** ** The keyboard *)

Section KeyboardFacts.

Variable keyDefinitions : gmap string Def.t.

Local Abbreviation resolve := (Keyboard._keyDescriptionForString keyDefinitions).
Local Abbreviation kdown := (Keyboard.down keyDefinitions).
Local Abbreviation kup := (Keyboard.up keyDefinitions).
Local Abbreviation kpress := (Keyboard.press keyDefinitions).

Lemma resolve_pure (key : string) (w : World) : snd (run (resolve key) w) = w.
Proof.
  unfold Keyboard._keyDescriptionForString. py_unfold.
  destruct (get_truthy Def.truthy (keyDefinitions !! key)); reflexivity.
Qed.

Lemma resolve_unknown (key : string) (w : World) :
  get_truthy Def.truthy (keyDefinitions !! key) = None ->
  run (resolve key) w = (Raise (PyppeteerError ("Unknown key: " +:+ key)), w).
Proof.
  intros H. unfold Keyboard._keyDescriptionForString. py_unfold.
  rewrite H. reflexivity.
Qed.

(** A key with a non-empty entry resolves; its code is the entry's, and
    so is its label when the entry has no shifted label. *)
Lemma resolve_known (key : string) (def : Def.t) (w : World) :
  keyDefinitions !! key = Some def ->
  Def.truthy def = true ->
  exists d, run (resolve key) w = (Return d, w) /\
            Description.code d = default "" (Def.code def) /\
            (get_truthy str_truthy (Def.shiftKey def) = None ->
             Description.key d = default "" (Def.key def)).
Proof.
  intros Hdef Htruthy. unfold Keyboard._keyDescriptionForString. py_unfold.
  rewrite Hdef. cbn [get_truthy]. rewrite Htruthy.
  eexists. split; [reflexivity|].
  destruct (int_truthy (Z.land (_modifiers (keyboard w)) 8)),
           (int_truthy (Z.land (_modifiers (keyboard w)) (Z.lnot 8))).
  all: split; [| intros Hs; try rewrite Hs].
  all: autorewrite with description.
  all: reflexivity.
Qed.

Lemma down_run (key : string) (options : Options) (d : Description.t) (w : World) :
  run (resolve key) w = (Return d, w) ->
  run (kdown key options) w = (Return tt, after_down d options w).
Proof.
  intros H. unfold Keyboard.down.
  rewrite (run_bind_return _ _ _ _ _ H).
  unfold after_down. destruct (opt_text options); reflexivity.
Qed.

Lemma down_raise (key : string) (options : Options) (e : Exception) (w : World) :
  run (resolve key) w = (Raise e, w) ->
  run (kdown key options) w = (Raise e, w).
Proof. intros H. unfold Keyboard.down. apply (run_bind_raise _ _ _ _ _ H). Qed.

Lemma up_run (key : string) (d : Description.t) (w : World) :
  run (resolve key) w = (Return d, w) ->
  Description.code d ∈ _pressedKeys (keyboard w) ->
  run (kup key) w = (Return tt, after_up d w).
Proof.
  intros H Hin. unfold Keyboard.up.
  rewrite (run_bind_return _ _ _ _ _ H).
  py_unfold. cbn [keyboard _pressedKeys].
  rewrite bool_decide_eq_true_2 by assumption. reflexivity.
Qed.

Lemma up_unpressed_run (key : string) (d : Description.t) (w : World) :
  run (resolve key) w = (Return d, w) ->
  Description.code d ∉ _pressedKeys (keyboard w) ->
  run (kup key) w = (Raise (KeyError (Description.code d)), after_clear d w).
Proof.
  intros H Hin. unfold Keyboard.up.
  rewrite (run_bind_return _ _ _ _ _ H).
  py_unfold. cbn [keyboard _pressedKeys].
  rewrite bool_decide_eq_false_2 by assumption. reflexivity.
Qed.

Lemma up_raise (key : string) (e : Exception) (w : World) :
  run (resolve key) w = (Raise e, w) ->
  run (kup key) w = (Raise e, w).
Proof. intros H. unfold Keyboard.up. apply (run_bind_raise _ _ _ _ _ H). Qed.

(** With no key held, a key-down is not a repeat. *)
Lemma down_first_autoRepeat (d : Description.t) (w : World) :
  _pressedKeys (keyboard w) = ∅ ->
  bool_decide (Description.key d ∈ _pressedKeys (keyboard w)) = false.
Proof. intros ->. apply bool_decide_eq_false_2. set_solver. Qed.

(** After one key-down from no key held, the flag of the next key-down
    compares its label with the code of the key that is held. *)
Lemma down_second_autoRepeat (d1 d2 : Description.t) (options : Options) (w : World) :
  _pressedKeys (keyboard w) = ∅ ->
  bool_decide (Description.key d2 ∈ _pressedKeys (keyboard (after_down d1 options w)))
  = bool_decide (Description.key d2 = Description.code d1).
Proof.
  intros H. cbn [after_down keyboard _pressedKeys]. rewrite H.
  apply bool_decide_ext.
  rewrite elem_of_union, elem_of_singleton. split; [intros [[]%not_elem_of_empty|]|]; auto.
Qed.

(** C2 (as amended): the description that a key resolves to depends on
    the keyboard only through the Shift bit of the modifiers and through
    whether some other modifier bit is set.  Two worlds that agree on
    both give the same result, whatever else they hold; two worlds that
    agree on the Shift bit alone give results that differ at most in
    the text.  Resolving changes nothing in the world and sends nothing. *)
Theorem resolve_depends_on_shift_and_other_modifiers (key : string) (w1 w2 : World) :
  Z.land (_modifiers (keyboard w1)) 8 = Z.land (_modifiers (keyboard w2)) 8 ->
  snd (run (resolve key) w1) = w1 /\
  snd (run (resolve key) w2) = w2 /\
  result_map (Description.set_text "") (fst (run (resolve key) w1))
  = result_map (Description.set_text "") (fst (run (resolve key) w2)) /\
  (int_truthy (Z.land (_modifiers (keyboard w1)) (Z.lnot 8))
   = int_truthy (Z.land (_modifiers (keyboard w2)) (Z.lnot 8)) ->
   fst (run (resolve key) w1) = fst (run (resolve key) w2)).
Proof.
  intros Hshift. split; [apply resolve_pure|]. split; [apply resolve_pure|].
  unfold Keyboard._keyDescriptionForString. py_unfold.
  rewrite Hshift.
  destruct (get_truthy Def.truthy (keyDefinitions !! key)) as [def|]; cbn [fst].
  - split.
    + destruct (int_truthy (Z.land (_modifiers (keyboard w1)) (Z.lnot 8))),
               (int_truthy (Z.land (_modifiers (keyboard w2)) (Z.lnot 8)));
        reflexivity.
    + intros ->. reflexivity.
  - split; reflexivity.
Qed.

(** C3: a key name that the layout table does not hold makes [down],
    [up] and [press] raise the unknown-key error; the world, and with it
    the trace, the modifiers and the pressed keys, is the one from before
    the call. *)
Theorem unknown_key_raises (key : string) (options : Options) (w : World) :
  keyDefinitions !! key = None ->
  run (kdown key options) w = (Raise (PyppeteerError ("Unknown key: " +:+ key)), w) /\
  run (kup key) w = (Raise (PyppeteerError ("Unknown key: " +:+ key)), w) /\
  run (kpress key options) w = (Raise (PyppeteerError ("Unknown key: " +:+ key)), w).
Proof.
  intros Hnone.
  assert (Hres : run (resolve key) w
                 = (Raise (PyppeteerError ("Unknown key: " +:+ key)), w)).
  { apply resolve_unknown. rewrite Hnone. reflexivity. }
  split; [|split].
  - apply down_raise, Hres.
  - apply up_raise, Hres.
  - unfold Keyboard.press. apply run_bind_raise, down_raise, Hres.
Qed.

(** C4: for a key of the layout table whose hardware code is not among
    the pressed keys, [up] raises the [KeyError] of [set.remove] and
    sends nothing. *)
Theorem up_unpressed_fails (key : string) (def : Def.t) (w : World) :
  keyDefinitions !! key = Some def ->
  Def.truthy def = true ->
  default "" (Def.code def) ∉ _pressedKeys (keyboard w) ->
  exists w', run (kup key) w = (Raise (KeyError (default "" (Def.code def))), w') /\
             trace w' = trace w /\
             _pressedKeys (keyboard w') = _pressedKeys (keyboard w).
Proof.
  intros Hdef Htruthy Hnot.
  destruct (resolve_known key def w Hdef Htruthy) as (d & Hres & Hcode & _).
  rewrite <- Hcode in *.
  exists (after_clear d w). split; [|split; reflexivity].
  apply up_unpressed_run; assumption.
Qed.

(** C8: for a key of the layout table, [down] sends exactly one command,
    a key event.  Its text is the [text] option when there is one and the
    text of the resolved description otherwise; its type is [rawKeyDown]
    when that text is empty and [keyDown] otherwise; it carries the
    modifiers as they are once the key's bit is set, the key code, the
    code, the label, the text twice, the repeat flag, the location, and
    [isKeypad], true exactly for location 3. *)
Theorem down_sends_one_key_event (key : string) (def : Def.t) (options : Options)
    (w : World) :
  keyDefinitions !! key = Some def ->
  Def.truthy def = true ->
  exists d,
    run (resolve key) w = (Return d, w) /\
    let text := match opt_text options with
                | Some override => override
                | None => Description.text d
                end in
    let modifiers :=
      Z.lor (_modifiers (keyboard w)) (Keyboard._modifierBit (Description.key d)) in
    run (kdown key options) w =
    (Return tt,
     {| keyboard := mkKeyboard modifiers (_pressedKeys (keyboard w) ∪ {[Description.code d]});
        mouse := mouse w;
        trace := trace w ++
          [Send "Input.dispatchKeyEvent"
             [("type", VStr (if (text =? "")%string then "rawKeyDown" else "keyDown"));
              ("modifiers", VInt modifiers);
              ("windowsVirtualKeyCode", VInt (Description.keyCode d));
              ("code", VStr (Description.code d));
              ("key", VStr (Description.key d));
              ("text", VStr text);
              ("unmodifiedText", VStr text);
              ("autoRepeat",
               VBool (bool_decide (Description.key d ∈ _pressedKeys (keyboard w))));
              ("location", VInt (Description.location d));
              ("isKeypad", VBool (Description.location d =? 3))]] |}).
Proof.
  intros Hdef Htruthy.
  destruct (resolve_known key def w Hdef Htruthy) as (d & Hres & _).
  exists d. split; [exact Hres|].
  cbv zeta. rewrite (down_run key options d w Hres).
  unfold after_down, str_truthy.
  destruct (opt_text options) as [override|]; cbn [default from_option id];
    match goal with |- context [(?t =? "")%string] => destruct (t =? "")%string end;
    reflexivity.
Qed.

(** C10 (as amended): when [up] is called for a key whose label is a
    modifier and whose code is not among the pressed keys, it raises and
    sends nothing, and the clearing of the modifier bit has happened by
    then: the modifiers after the failed call are the ones before with
    that bit removed.  They differ from the ones before exactly when the
    bit was set. *)
Theorem up_unpressed_clears_modifier (key : string) (d : Description.t) (w : World) :
  run (resolve key) w = (Return d, w) ->
  Keyboard._modifierBit (Description.key d) <> 0 ->
  Description.code d ∉ _pressedKeys (keyboard w) ->
  let bit := Keyboard._modifierBit (Description.key d) in
  exists w',
    run (kup key) w = (Raise (KeyError (Description.code d)), w') /\
    trace w' = trace w /\
    _modifiers (keyboard w') = Z.land (_modifiers (keyboard w)) (Z.lnot bit) /\
    Z.land (_modifiers (keyboard w')) bit = 0 /\
    (_modifiers (keyboard w') <> _modifiers (keyboard w) <->
     Z.land (_modifiers (keyboard w)) bit <> 0).
Proof.
  intros Hres Hbit Hnot bit.
  exists (after_clear d w). split; [apply up_unpressed_run; assumption|].
  cbn [after_clear trace keyboard _modifiers]. fold bit.
  split; [reflexivity|]. split; [reflexivity|]. split.
  - apply land_lnot_clear.
  - split.
    + intros Hne Hz. apply Hne, land_lnot_id, Hz.
    + apply land_lnot_changes.
Qed.

(** C6 (as amended): for a key whose entry has one of the labels Alt,
    Control, Meta and Shift and no shifted label, [down] followed by [up]
    succeeds and leaves the modifiers with the bit of that label cleared
    and every other bit as before the [down].  That is the value before
    the [down] exactly when the bit was clear then. *)
Theorem modifier_down_up (key label : string) (def : Def.t) (options : Options)
    (w : World) :
  keyDefinitions !! key = Some def ->
  Def.key def = Some label ->
  get_truthy str_truthy (Def.shiftKey def) = None ->
  label = "Alt" \/ label = "Control" \/ label = "Meta" \/ label = "Shift" ->
  let bit := Keyboard._modifierBit label in
  (bit = 1 \/ bit = 2 \/ bit = 4 \/ bit = 8) /\
  exists w',
    run (kdown key options;; kup key) w = (Return tt, w') /\
    _modifiers (keyboard w') = Z.land (_modifiers (keyboard w)) (Z.lnot bit) /\
    Z.land (_modifiers (keyboard w')) bit = 0 /\
    (_modifiers (keyboard w') = _modifiers (keyboard w) <->
     Z.land (_modifiers (keyboard w)) bit = 0).
Proof.
  intros Hdef Hkey Hshift Hlabel bit.
  split.
  { destruct Hlabel as [-> | [-> | [-> | ->]]]; vm_compute; auto. }
  pose proof (truthy_of_key def label Hkey) as Htruthy.
  destruct (resolve_known key def w Hdef Htruthy) as (d & Hres & Hcode & Hlab).
  specialize (Hlab Hshift). rewrite Hkey in Hlab. cbn [default] in Hlab.
  destruct (resolve_known key def (after_down d options w) Hdef Htruthy)
    as (d' & Hres' & Hcode' & Hlab').
  specialize (Hlab' Hshift). rewrite Hkey in Hlab'. cbn [default] in Hlab'.
  exists (after_up d' (after_down d options w)). split.
  - rewrite run_bind, (down_run key options d w Hres).
    apply up_run; [exact Hres'|].
    cbn [after_down keyboard _pressedKeys]. rewrite Hcode', <- Hcode.
    apply elem_of_union_r, elem_of_singleton. reflexivity.
  - cbn [after_up after_down keyboard _modifiers]. rewrite Hlab, Hlab'. fold bit.
    rewrite lor_land_lnot.
    split; [reflexivity|]. split; [apply land_lnot_clear|].
    split.
    + intros E. rewrite <- E. apply land_lnot_clear.
    + apply land_lnot_id.
Qed.

(** The loop of [type] when the table has no ["char"] entry and the
    delay is not zero and has a thousandth. *)
Lemma type_loop (l : list string) (delay : Z) (t : float) (w : World) :
  keyDefinitions !! "char" = None ->
  delay <> 0 ->
  int_true_div delay 1000 = Return t ->
  run (for_ l (fun char =>
         (if bool_decide (is_Some (keyDefinitions !! "char"))
          then kpress char (mkOptions None (Some delay) None None None)
          else Keyboard.sendCharacter char);;
         if int_truthy delay then sleep_quotient delay 1000 else mret tt)) w
  = (Return tt,
     {| keyboard := keyboard w;
        mouse := mouse w;
        trace := trace w ++
          flat_map (fun char => [char_event (_modifiers (keyboard w)) char; Sleep delay 1000])
                   l |}).
Proof.
  intros Hnone Hdelay Hdiv. rewrite Hnone.
  assert (Htruthy : int_truthy delay = true).
  { unfold int_truthy. apply negb_true_iff, Z.eqb_neq, Hdelay. }
  rewrite Htruthy. clear Htruthy.
  revert w. induction l as [|char l IH]; intros w.
  - cbn [for_ flat_map]. rewrite app_nil_r, world_eta. reflexivity.
  - cbn [for_]. rewrite run_bind.
    rewrite bool_decide_eq_false_2 by (intros [? ?]; discriminate).
    rewrite run_bind.
    change (run (Keyboard.sendCharacter char) w)
      with (Return tt,
            {| keyboard := keyboard w; mouse := mouse w;
               trace := trace w ++ [char_event (_modifiers (keyboard w)) char] |}).
    cbv iota beta. rewrite (sleep_quotient_run _ _ t) by assumption.
    rewrite IH. cbn [keyboard mouse trace flat_map].
    rewrite <- !app_assoc. reflexivity.
Qed.

(** C7 (as amended): when the layout table has no ["char"] entry and the
    delay [d] is positive and [d / 1000] is not too large for a float,
    [type] sends, for each character of the text in order, one [char]
    command for that character and then sleeps for [d / 1000]; nothing
    else is sent, and since neither [down] nor [up] runs, the modifiers
    and the pressed keys are as before. *)
Theorem type_sends_characters (text : string) (options : Options) (d : Z) (t : float)
    (w : World) :
  keyDefinitions !! "char" = None ->
  opt_delay options = Some d ->
  0 < d ->
  int_true_div d 1000 = Return t ->
  run (Keyboard.type keyDefinitions text options) w
  = (Return tt,
     {| keyboard := keyboard w;
        mouse := mouse w;
        trace := trace w ++
          flat_map (fun char => [char_event (_modifiers (keyboard w)) char; Sleep d 1000])
                   (Keyboard.chars text) |}).
Proof.
  intros Hnone Hdelay Hpos Hdiv. unfold Keyboard.type, Keyboard.delay_of.
  rewrite Hdelay. cbn [get_truthy].
  assert (Htruthy : int_truthy d = true).
  { unfold int_truthy. apply negb_true_iff, Z.eqb_neq. lia. }
  rewrite Htruthy. apply (type_loop _ _ t); [assumption | lia | assumption].
Qed.

End KeyboardFacts.

(** ** Float arithmetic *)

Lemma div_eucl_shift (p : positive) :
  Z.div_eucl (Z.shiftl (Z.pos p) 53) (Z.pos p) = (9007199254740992, 0).
Proof.
  rewrite Z.shiftl_mul_pow2, Z.mul_comm by lia.
  pose proof (Z.div_mul (2 ^ 53) (Z.pos p) ltac:(lia)) as Hq.
  pose proof (Z.mod_mul (2 ^ 53) (Z.pos p) ltac:(lia)) as Hr.
  unfold Z.div, Z.modulo in Hq, Hr.
  destruct (Z.div_eucl (2 ^ 53 * Z.pos p) (Z.pos p)) as [q r].
  cbn [fst snd] in Hq, Hr. subst q r. reflexivity.
Qed.

(** [n / n] is [1.0] for every positive [int]. *)
Lemma int_true_div_diag (n : Z) : 1 <= n -> int_true_div n n = Return PyFloat.one.
Proof.
  intros Hn. destruct n as [|p|p]; try lia.
  unfold int_true_div. cbn [Z.abs Z.to_pos].
  unfold PyFloat.div, SFdiv, SFdiv_core_binary.
  cbn [Zdigits2]. rewrite !Z.add_0_r, !Z.sub_diag.
  change (Z.min (fexp PyFloat.prec PyFloat.emax 0) 0) with (-53).
  change (0 - -53) with 53.
  cbv iota beta zeta. rewrite div_eucl_shift.
  unfold new_location, new_location_even, new_location_odd.
  match goal with |- context [if ?b then _ else _] => destruct b end; reflexivity.
Qed.

Lemma round_finite (f : float) :
  PyFloat.is_finite f = true -> exists z, round f = Return z.
Proof. destruct f; simpl; intros H; try discriminate; eauto. Qed.

(** ** The mouse *)

Lemma move_step_run (fromX fromY : float) (steps i : Z) (w : World) :
  run (Mouse.move_step fromX fromY steps i) w =
  match Mouse.interpolate fromX (_x (mouse w)) i steps,
        Mouse.interpolate fromY (_y (mouse w)) i steps with
  | Return px, Return py =>
      (Return tt,
       {| keyboard := keyboard w;
          mouse := mouse w;
          trace := trace w ++
            [moved_event (_button (mouse w)) px py (_modifiers (keyboard w))] |})
  | Raise e, _ => (Raise e, w)
  | Return _, Raise e => (Raise e, w)
  end.
Proof.
  unfold Mouse.move_step. py_unfold.
  destruct (Mouse.interpolate fromX (_x (mouse w)) i steps);
    destruct (Mouse.interpolate fromY (_y (mouse w)) i steps); reflexivity.
Qed.

(** The loop of [move] never writes to the keyboard or to the cursor. *)
Lemma move_loop_state (l : list Z) (fromX fromY : float) (steps : Z) (w : World) :
  let w' := snd (run (for_ l (Mouse.move_step fromX fromY steps)) w) in
  keyboard w' = keyboard w /\ mouse w' = mouse w.
Proof.
  revert w. induction l as [|i l IH]; intros w; [split; reflexivity|].
  cbn [for_]. rewrite run_bind, move_step_run.
  destruct (Mouse.interpolate fromX (_x (mouse w)) i steps) as [px|e];
    [|split; reflexivity].
  destruct (Mouse.interpolate fromY (_y (mouse w)) i steps) as [py|e];
    [|split; reflexivity].
  match goal with |- context [run _ ?w1] => apply (IH w1) end.
Qed.



(** ** The touchscreen *)

(** C9 (as amended): for finite [x] and [y], [tap] sends exactly two
    commands: a [touchStart] with the single point [(round(x), round(y))]
    and the modifiers, then a [touchEnd] with no point and the modifiers.
    It reads nothing but the modifiers and writes nothing but the trace. *)
Theorem tap_sends_start_and_end (x y : float) (w : World) :
  PyFloat.is_finite x = true ->
  PyFloat.is_finite y = true ->
  exists rx ry,
    round x = Return rx /\
    round y = Return ry /\
    run (Touchscreen.tap x y) w
    = (Return tt,
       {| keyboard := keyboard w;
          mouse := mouse w;
          trace := trace w ++
            [touch_start rx ry (_modifiers (keyboard w));
             touch_end (_modifiers (keyboard w))] |}).
Proof.
  intros Hx Hy.
  destruct (round_finite x Hx) as [rx Hrx], (round_finite y Hy) as [ry Hry].
  exists rx, ry. split; [assumption|]. split; [assumption|].
  unfold Touchscreen.tap. py_unfold. rewrite Hrx, Hry.
  cbn [keyboard mouse trace]. rewrite <- app_assoc. reflexivity.
Qed.

(** ** Runs on the sample layout *)

(** C1: on the sample layout, two [down("a")] in a row from the initial
    state send two key events, and the second, like the first, has
    [autoRepeat] false: the label ["a"] is looked up among the pressed
    codes, which hold ["KeyA"]. *)
Theorem down_twice_without_autoRepeat :
  run (Keyboard.down us_layout "a" no_options;; Keyboard.down us_layout "a" no_options) init
  = (Return tt,
     {| keyboard := mkKeyboard 0 {["KeyA"]};
        mouse := mouse init;
        trace :=
          [Send "Input.dispatchKeyEvent"
             [("type", VStr "keyDown"); ("modifiers", VInt 0);
              ("windowsVirtualKeyCode", VInt 65); ("code", VStr "KeyA");
              ("key", VStr "a"); ("text", VStr "a"); ("unmodifiedText", VStr "a");
              ("autoRepeat", VBool false); ("location", VInt 0);
              ("isKeypad", VBool false)];
           Send "Input.dispatchKeyEvent"
             [("type", VStr "keyDown"); ("modifiers", VInt 0);
              ("windowsVirtualKeyCode", VInt 65); ("code", VStr "KeyA");
              ("key", VStr "a"); ("text", VStr "a"); ("unmodifiedText", VStr "a");
              ("autoRepeat", VBool false); ("location", VInt 0);
              ("isKeypad", VBool false)]] |}).
Proof. vm_compute. reflexivity. Qed.

(** A key whose label is also its code does repeat. *)
Example down_twice_enter_autoRepeat :
  (fun a => match a with
            | Send _ params => params !! 7%nat
            | Sleep _ _ => None
            end)
    <$> trace (snd (run (Keyboard.down us_layout "Enter" no_options;;
                         Keyboard.down us_layout "Enter" no_options) init))
  = [Some ("autoRepeat", VBool false); Some ("autoRepeat", VBool true)].
Proof. vm_compute. reflexivity. Qed.

(** With Alt held the Shift bit is as in the initial state, and yet
    ["a"] resolves to another description: its text is empty. *)
Lemma resolve_differs_with_alt_held :
  let w1 := init in
  let w2 := snd (run (Keyboard.down us_layout "Alt" no_options) init) in
  Z.land (_modifiers (keyboard w1)) 8 = Z.land (_modifiers (keyboard w2)) 8 /\
  fst (run (Keyboard._keyDescriptionForString us_layout "a") w1)
  = Return (Description.mk "a" 65 "KeyA" "a" 0) /\
  fst (run (Keyboard._keyDescriptionForString us_layout "a") w2)
  = Return (Description.mk "a" 65 "KeyA" "" 0) /\
  fst (run (Keyboard._keyDescriptionForString us_layout "a") w1)
  <> fst (run (Keyboard._keyDescriptionForString us_layout "a") w2).
Proof. vm_compute. repeat split; discriminate. Qed.

(** With the right Shift key held the modifiers are 8; [down("Shift")]
    and [up("Shift")] then leave them at 0, not at 8. *)
Lemma shift_down_up_drops_held_shift :
  let w := snd (run (Keyboard.down us_layout "ShiftRight" no_options) init) in
  let r := run (Keyboard.down us_layout "Shift" no_options;; Keyboard.up us_layout "Shift") w in
  fst r = Return tt /\
  _modifiers (keyboard w) = 8 /\
  _modifiers (keyboard (snd r)) = 0 /\
  _modifiers (keyboard (snd r)) <> _modifiers (keyboard w).
Proof. vm_compute. repeat split; discriminate. Qed.


(** On a keyboard with no key held, [up("Shift")] raises and leaves the
    modifiers, and the whole world, as they were. *)
Lemma up_shift_unpressed_changes_nothing :
  ("ShiftLeft" ∉ _pressedKeys (keyboard init)) /\
  run (Keyboard.up us_layout "Shift") init = (Raise (KeyError "ShiftLeft"), init).
Proof. split; [apply not_elem_of_empty | vm_compute; reflexivity]. Qed.

(** With a delay of 10^312 and no ["char"] entry, [type("Hi")] sends
    the [char] command for "H" and then raises in [delay / 1000]: there is
    no sleep and no command for "i". *)
Lemma type_huge_delay_raises :
  us_layout !! "char" = None /\
  0 < huge_delay /\
  run (Keyboard.type us_layout "Hi" (mkOptions None (Some huge_delay) None None None)) init
  = (Raise (OverflowError "integer division result too large for a float"),
     {| keyboard := keyboard init;
        mouse := mouse init;
        trace := [char_event 0 "H"] |}).
Proof. vm_compute. repeat split. Qed.

(** A [tap] at a NaN coordinate raises and sends nothing. *)
Lemma tap_nan_sends_nothing :
  run (Touchscreen.tap PyFloat.nan PyFloat.zero) init
  = (Raise (ValueError "cannot convert float NaN to integer"), init).
Proof. vm_compute. reflexivity. Qed.

(** Whichever Shift key is held, ["KeyA"] resolves alike. *)
Lemma resolve_alike_with_either_shift :
  let w1 := snd (run (Keyboard.down us_layout "ShiftLeft" no_options) init) in
  let w2 := snd (run (Keyboard.down us_layout "ShiftRight" no_options) init) in
  Z.land (_modifiers (keyboard w1)) 8 = Z.land (_modifiers (keyboard w2)) 8 /\
  fst (run (Keyboard._keyDescriptionForString us_layout "KeyA") w1)
  = fst (run (Keyboard._keyDescriptionForString us_layout "KeyA") w2).
Proof.
  intros w1 w2.
  assert (Hshift : Z.land (_modifiers (keyboard w1)) 8 = Z.land (_modifiers (keyboard w2)) 8)
    by (vm_compute; reflexivity).
  split; [exact Hshift|].
  destruct (resolve_depends_on_shift_and_other_modifiers us_layout "KeyA" w1 w2 Hshift)
    as (_ & _ & _ & Hsame).
  apply Hsame. vm_compute. reflexivity.
Defined.

Lemma frobnicate_raises :
  us_layout !! "Frobnicate" = None /\
  run (Keyboard.down us_layout "Frobnicate" no_options) init
  = (Raise (PyppeteerError "Unknown key: Frobnicate"), init) /\
  run (Keyboard.up us_layout "Frobnicate") init
  = (Raise (PyppeteerError "Unknown key: Frobnicate"), init) /\
  run (Keyboard.press us_layout "Frobnicate" no_options) init
  = (Raise (PyppeteerError "Unknown key: Frobnicate"), init).
Proof.
  assert (Hnone : us_layout !! "Frobnicate" = None) by (vm_compute; reflexivity).
  split; [exact Hnone|].
  exact (unknown_key_raises us_layout "Frobnicate" no_options init Hnone).
Defined.

Lemma up_a_unpressed_fails :
  us_layout !! "a" = Some (us_entry 65 "a" "KeyA" None) /\
  Def.truthy (us_entry 65 "a" "KeyA" None) = true /\
  ("KeyA" ∉ _pressedKeys (keyboard init)) /\
  exists w', run (Keyboard.up us_layout "a") init = (Raise (KeyError "KeyA"), w') /\
             trace w' = [] /\
             _pressedKeys (keyboard w') = ∅.
Proof.
  assert (Hdef : us_layout !! "a" = Some (us_entry 65 "a" "KeyA" None))
    by (vm_compute; reflexivity).
  assert (Hnot : "KeyA" ∉ _pressedKeys (keyboard init)) by apply not_elem_of_empty.
  split; [exact Hdef|]. split; [reflexivity|]. split; [exact Hnot|].
  exact (up_unpressed_fails us_layout "a" _ init Hdef eq_refl Hnot).
Defined.


Lemma shift_down_up_from_init :
  us_layout !! "Shift" = Some (us_entry 16 "Shift" "ShiftLeft" (Some 1)) /\
  exists w', run (Keyboard.down us_layout "Shift" no_options;; Keyboard.up us_layout "Shift") init
             = (Return tt, w') /\
             _modifiers (keyboard w') = _modifiers (keyboard init).
Proof.
  assert (Hdef : us_layout !! "Shift" = Some (us_entry 16 "Shift" "ShiftLeft" (Some 1)))
    by (vm_compute; reflexivity).
  split; [exact Hdef|].
  destruct (modifier_down_up us_layout "Shift" "Shift" _ no_options init Hdef eq_refl eq_refl)
    as (_ & w' & Hrun & _ & _ & Hsame).
  - auto.
  - exists w'. split; [exact Hrun|]. apply Hsame. reflexivity.
Defined.

Lemma type_Hi :
  us_layout !! "char" = None /\
  0 < 10 /\
  int_true_div 10 1000 = Return (S754_finite false 5764607523034235 (-59)) /\
  run (Keyboard.type us_layout "Hi" (mkOptions None (Some 10) None None None)) init
  = (Return tt,
     {| keyboard := keyboard init;
        mouse := mouse init;
        trace := [char_event 0 "H"; Sleep 10 1000; char_event 0 "i"; Sleep 10 1000] |}).
Proof.
  assert (Hnone : us_layout !! "char" = None) by (vm_compute; reflexivity).
  assert (Hdiv : int_true_div 10 1000 = Return (S754_finite false 5764607523034235 (-59)))
    by (vm_compute; reflexivity).
  split; [exact Hnone|]. split; [lia|]. split; [exact Hdiv|].
  exact (type_sends_characters us_layout "Hi" (mkOptions None (Some 10) None None None) 10 _ init
           Hnone eq_refl ltac:(lia) Hdiv).
Defined.

Lemma down_numpad5_with_text :
  let def := Def.mk (Some "Clear") (Some "5") (Some 12) (Some 101) (Some "Numpad5")
               (Some 3) None None in
  let options := mkOptions (Some "x") None None None None in
  us_layout !! "Numpad5" = Some def /\
  Def.truthy def = true /\
  run (Keyboard.down us_layout "Numpad5" options) init
  = (Return tt,
     {| keyboard := mkKeyboard 0 {["Numpad5"]};
        mouse := mouse init;
        trace :=
          [Send "Input.dispatchKeyEvent"
             [("type", VStr "keyDown"); ("modifiers", VInt 0);
              ("windowsVirtualKeyCode", VInt 12); ("code", VStr "Numpad5");
              ("key", VStr "Clear"); ("text", VStr "x"); ("unmodifiedText", VStr "x");
              ("autoRepeat", VBool false); ("location", VInt 3);
              ("isKeypad", VBool true)]] |}).
Proof.
  intros def options.
  assert (Hdef : us_layout !! "Numpad5" = Some def) by (vm_compute; reflexivity).
  split; [exact Hdef|]. split; [reflexivity|].
  destruct (down_sends_one_key_event us_layout "Numpad5" def options init Hdef eq_refl)
    as (d & Hres & Hrun).
  assert (Hd : d = Description.mk "Clear" 12 "Numpad5" "" 3).
  { assert (E : run (Keyboard._keyDescriptionForString us_layout "Numpad5") init
                = (Return (Description.mk "Clear" 12 "Numpad5" "" 3), init))
      by (vm_compute; reflexivity).
    rewrite E in Hres. injection Hres as <-. reflexivity. }
  subst d. rewrite Hrun. vm_compute. reflexivity.
Defined.

Lemma tap_three_and_a_half :
  let x := PyFloat.of_Z 3 in
  let y := S754_finite false 5 (-1) in
  PyFloat.is_finite x = true /\
  PyFloat.is_finite y = true /\
  run (Touchscreen.tap x y) init
  = (Return tt,
     {| keyboard := keyboard init;
        mouse := mouse init;
        trace := [touch_start 3 2 0; touch_end 0] |}).
Proof.
  intros x y. split; [reflexivity|]. split; [reflexivity|].
  destruct (tap_sends_start_and_end x y init eq_refl eq_refl) as (rx & ry & Hx & Hy & Hrun).
  assert (rx = 3) as -> by (vm_compute in Hx; injection Hx as <-; reflexivity).
  assert (ry = 2) as -> by (vm_compute in Hy; injection Hy as <-; reflexivity).
  exact Hrun.
Defined.

Lemma up_other_shift_clears_modifier :
  let w := snd (run (Keyboard.down us_layout "ShiftLeft" no_options) init) in
  let d := Description.mk "Shift" 16 "ShiftRight" "" 2 in
  run (Keyboard._keyDescriptionForString us_layout "ShiftRight") w = (Return d, w) /\
  Keyboard._modifierBit (Description.key d) <> 0 /\
  (Description.code d ∉ _pressedKeys (keyboard w)) /\
  _modifiers (keyboard w) = 8 /\
  exists w', run (Keyboard.up us_layout "ShiftRight") w = (Raise (KeyError "ShiftRight"), w') /\
             trace w' = trace w /\
             _modifiers (keyboard w') = 0.
Proof.
  intros w d.
  assert (Hres : run (Keyboard._keyDescriptionForString us_layout "ShiftRight") w = (Return d, w))
    by (vm_compute; reflexivity).
  assert (Hbit : Keyboard._modifierBit (Description.key d) <> 0) by (vm_compute; discriminate).
  assert (Hnot : Description.code d ∉ _pressedKeys (keyboard w)).
  { apply (bool_decide_unpack _). vm_compute. exact I. }
  split; [exact Hres|]. split; [exact Hbit|]. split; [exact Hnot|]. split; [reflexivity|].
  destruct (up_unpressed_clears_modifier us_layout "ShiftRight" d w Hres Hbit Hnot)
    as (w' & Hrun & Htrace & Hmod & _).
  exists w'. split; [exact Hrun|]. split; [exact Htrace|]. rewrite Hmod. reflexivity.
Defined.

(** * Further properties *)

(** ** Masks in range *)

Lemma modifierBit_cases (key : string) :
  Keyboard._modifierBit key = 0 \/ Keyboard._modifierBit key = 1 \/
  Keyboard._modifierBit key = 2 \/ Keyboard._modifierBit key = 4 \/
  Keyboard._modifierBit key = 8.
Proof.
  unfold Keyboard._modifierBit.
  repeat match goal with |- context [if ?b then _ else _] => destruct b end; auto.
Qed.

Lemma mask_cases (m : Z) :
  0 <= m < 16 ->
  m = 0 \/ m = 1 \/ m = 2 \/ m = 3 \/ m = 4 \/ m = 5 \/ m = 6 \/ m = 7 \/
  m = 8 \/ m = 9 \/ m = 10 \/ m = 11 \/ m = 12 \/ m = 13 \/ m = 14 \/ m = 15.
Proof. lia. Qed.

Lemma lor_bit_in_range (m : Z) (key : string) :
  0 <= m < 16 -> 0 <= Z.lor m (Keyboard._modifierBit key) < 16.
Proof.
  intros Hm.
  destruct (modifierBit_cases key) as [-> | [-> | [-> | [-> | ->]]]];
    destruct (mask_cases m Hm) as
      [-> | [-> | [-> | [-> | [-> | [-> | [-> | [-> |
       [-> | [-> | [-> | [-> | [-> | [-> | [-> | ->]]]]]]]]]]]]]]];
    vm_compute; split; congruence.
Qed.

Lemma land_lnot_bit_in_range (m : Z) (key : string) :
  0 <= m < 16 -> 0 <= Z.land m (Z.lnot (Keyboard._modifierBit key)) < 16.
Proof.
  intros Hm.
  destruct (modifierBit_cases key) as [-> | [-> | [-> | [-> | ->]]]];
    destruct (mask_cases m Hm) as
      [-> | [-> | [-> | [-> | [-> | [-> | [-> | [-> |
       [-> | [-> | [-> | [-> | [-> | [-> | [-> | ->]]]]]]]]]]]]]]];
    vm_compute; split; congruence.
Qed.

Lemma land_lor_same (m b : Z) : Z.land (Z.lor m b) b = b.
Proof.
  apply Z.bits_inj'. intros n Hn. rewrite Z.land_spec, Z.lor_spec.
  destruct (Z.testbit m n), (Z.testbit b n); reflexivity.
Qed.

(** ** Loops *)

Lemma for_invariant {A} (P : World -> Prop) (l : list A) (body : A -> Py unit) :
  (forall x w, P w -> P (snd (run (body x) w))) ->
  forall w, P w -> P (snd (run (for_ l body) w)).
Proof.
  intros Hbody. induction l as [|x l IH]; intros w Hw; [exact Hw|].
  cbn [for_]. rewrite run_bind.
  specialize (Hbody x w Hw).
  destruct (run (body x) w) as [[[]|e] w1]; cbn [snd] in *; [apply IH|]; assumption.
Qed.

Section KeyboardMore.

Variable keyDefinitions : gmap string Def.t.

Local Abbreviation resolve := (Keyboard._keyDescriptionForString keyDefinitions).
Local Abbreviation kdown := (Keyboard.down keyDefinitions).
Local Abbreviation kup := (Keyboard.up keyDefinitions).
Local Abbreviation kpress := (Keyboard.press keyDefinitions).
Local Abbreviation ktype := (Keyboard.type keyDefinitions).

Lemma resolve_describe (key : string) (def : Def.t) (w : World) :
  keyDefinitions !! key = Some def ->
  Def.truthy def = true ->
  run (resolve key) w = (Return (describe def (_modifiers (keyboard w))), w).
Proof.
  intros Hdef Htruthy. unfold Keyboard._keyDescriptionForString, describe. py_unfold.
  rewrite Hdef. cbn [get_truthy]. rewrite Htruthy. clear Hdef Htruthy.
  do 2 f_equal.
  generalize (get_truthy str_truthy (Def.shiftKey def)) as sk.
  generalize (get_truthy int_truthy (Def.shiftKeyCode def)) as skc.
  generalize (get_truthy str_truthy (Def.shiftText def)) as st.
  intros st skc sk.
  destruct (int_truthy (Z.land (_modifiers (keyboard w)) 8)),
           (int_truthy (Z.land (_modifiers (keyboard w)) (Z.lnot 8)));
    destruct (Def.key def), (Def.keyCode def), (Def.code def), (Def.location def),
             (Def.text def), st, skc, sk; cbn;
    repeat match goal with |- context [if ?b then _ else _] => destruct b end;
    reflexivity.
Qed.

(** Resolving either returns a description or raises, in the same world. *)
Lemma resolve_cases (key : string) (w : World) :
  (exists d, run (resolve key) w = (Return d, w)) \/
  (exists e, run (resolve key) w = (Raise e, w)).
Proof.
  pose proof (resolve_pure keyDefinitions key w) as Hpure.
  destruct (run (resolve key) w) as [[d|e] w1]; cbn [snd] in Hpure; subst w1; eauto.
Qed.

(** The worlds that [down] and [up] can end in. *)
Lemma down_cases (key : string) (options : Options) (w : World) :
  snd (run (kdown key options) w) = w \/
  exists d, snd (run (kdown key options) w) = after_down d options w.
Proof.
  destruct (resolve_cases key w) as [[d Hres] | [e Hres]].
  - right. exists d. rewrite (down_run _ _ _ _ _ Hres). reflexivity.
  - left. rewrite (down_raise _ _ _ _ _ Hres). reflexivity.
Qed.

Lemma up_cases (key : string) (w : World) :
  snd (run (kup key) w) = w \/
  exists d, snd (run (kup key) w) = after_clear d w \/
            snd (run (kup key) w) = after_up d w.
Proof.
  destruct (resolve_cases key w) as [[d Hres] | [e Hres]].
  - right. exists d.
    destruct (decide (Description.code d ∈ _pressedKeys (keyboard w))) as [Hin | Hnot].
    + right. rewrite (up_run _ _ _ _ Hres Hin). reflexivity.
    + left. rewrite (up_unpressed_run _ _ _ _ Hres Hnot). reflexivity.
  - left. rewrite (up_raise _ _ _ _ Hres). reflexivity.
Qed.

(** A property of worlds that the four ways to change the world from the
    keyboard keep is kept by every method of the keyboard, whatever the
    outcome of the call. *)
Lemma keyboard_invariant (P : World -> Prop) :
  (forall d options w, P w -> P (after_down d options w)) ->
  (forall d w, P w -> P (after_clear d w)) ->
  (forall d w, P w -> P (after_up d w)) ->
  (forall a w, P w ->
     P {| keyboard := keyboard w; mouse := mouse w; trace := trace w ++ [a] |}) ->
  forall w, P w ->
    (forall key options, P (snd (run (kdown key options) w))) /\
    (forall key, P (snd (run (kup key) w))) /\
    (forall key options, P (snd (run (kpress key options) w))) /\
    (forall char, P (snd (run (Keyboard.sendCharacter char) w))) /\
    (forall text options, P (snd (run (ktype text options) w))).
Proof.
  intros Hdown Hclear Hup Hemit.
  assert (Pdown : forall w key options, P w -> P (snd (run (kdown key options) w))).
  { intros w key options Hw.
    destruct (down_cases key options w) as [-> | [d ->]]; auto. }
  assert (Pup : forall w key, P w -> P (snd (run (kup key) w))).
  { intros w key Hw.
    destruct (up_cases key w) as [-> | [d [-> | ->]]]; auto. }
  assert (Ppress : forall w key options, P w -> P (snd (run (kpress key options) w))).
  { intros w key options Hw. unfold Keyboard.press. rewrite run_bind.
    specialize (Pdown w key options Hw).
    destruct (run (kdown key options) w) as [[[]|e] w1]; cbn [snd] in *; [|assumption].
    rewrite run_bind.
    destruct (Keyboard.delay_of options) as [delay|].
    - destruct (sleep_quotient_cases delay 1000 w1) as [(e & _ & ->) | (t & _ & ->)];
        [assumption | apply Pup, Hemit; assumption].
    - apply Pup. assumption. }
  assert (Psend : forall w char, P w -> P (snd (run (Keyboard.sendCharacter char) w))).
  { intros w char Hw. apply (Hemit _ w Hw). }
  intros w Hw. repeat split; auto.
  intros text options. unfold Keyboard.type.
  apply for_invariant; [|assumption].
  intros char w0 Hw0. rewrite run_bind.
  assert (Hfirst : P (snd (run (if bool_decide (is_Some (keyDefinitions !! "char"))
                                then kpress char (mkOptions None
                                       (Some match Keyboard.delay_of options with
                                             | Some delay => delay
                                             | None => 0
                                             end) None None None)
                                else Keyboard.sendCharacter char) w0))).
  { destruct (bool_decide (is_Some (keyDefinitions !! "char"))); auto. }
  match goal with
  | |- context [run ?m w0] =>
      destruct (run m w0) as [[[]|e] w1]; cbn [snd] in *; [|assumption]
  end.
  destruct (int_truthy _); [|exact Hfirst].
  match goal with
  | |- context [run (sleep_quotient ?n ?d) w1] =>
      destruct (sleep_quotient_cases n d w1) as [(e & _ & ->) | (t & _ & ->)]
  end; [exact Hfirst | apply (Hemit _ w1 Hfirst)].
Qed.

Lemma describe_code (def : Def.t) (m : Z) :
  Description.code (describe def m) = default "" (Def.code def).
Proof. reflexivity. Qed.

Lemma describe_key_unshifted (def : Def.t) (m : Z) :
  get_truthy str_truthy (Def.shiftKey def) = None ->
  Description.key (describe def m) = default "" (Def.key def).
Proof.
  intros H. unfold describe. cbn [Description.key]. rewrite H.
  destruct (int_truthy (Z.land m 8)); reflexivity.
Qed.

Lemma describe_text_other_modifier (def : Def.t) (m : Z) :
  Z.land m (Z.lnot 8) <> 0 -> Description.text (describe def m) = "".
Proof.
  intros H. unfold describe, int_truthy. cbn [Description.text].
  apply Z.eqb_neq in H. rewrite H. reflexivity.
Qed.






(** X1: resolving a key name is a lookup followed by [describe]: a name
    with no entry, or with an empty one, raises the unknown-key error; any
    other yields the closed form of its entry under the current
    modifiers.  The world is untouched either way. *)
Theorem resolve_closed_form (key : string) (w : World) :
  run (resolve key) w =
  match keyDefinitions !! key with
  | Some def =>
      if Def.truthy def
      then (Return (describe def (_modifiers (keyboard w))), w)
      else (Raise (PyppeteerError ("Unknown key: " +:+ key)), w)
  | None => (Raise (PyppeteerError ("Unknown key: " +:+ key)), w)
  end.
Proof.
  destruct (keyDefinitions !! key) as [def|] eqn:Hdef.
  - destruct (Def.truthy def) eqn:Htruthy.
    + apply resolve_describe; assumption.
    + apply resolve_unknown. rewrite Hdef. cbn [get_truthy]. rewrite Htruthy. reflexivity.
  - apply resolve_unknown. rewrite Hdef. reflexivity.
Qed.

(** X2: the modifiers stay a mask over the four flags: when they are in
    0..15 before a call of [down], [up], [press], [sendCharacter] or
    [type], they are in 0..15 after it, whether the call returns or
    raises. *)
Theorem keyboard_keeps_modifiers_in_range (w : World) :
  modifiers_in_range w ->
  (forall key options, modifiers_in_range (snd (run (kdown key options) w))) /\
  (forall key, modifiers_in_range (snd (run (kup key) w))) /\
  (forall key options, modifiers_in_range (snd (run (kpress key options) w))) /\
  (forall char, modifiers_in_range (snd (run (Keyboard.sendCharacter char) w))) /\
  (forall text options, modifiers_in_range (snd (run (ktype text options) w))).
Proof.
  apply (keyboard_invariant modifiers_in_range); unfold modifiers_in_range.
  - intros d options w0. apply lor_bit_in_range.
  - intros d w0. apply land_lnot_bit_in_range.
  - intros d w0. apply land_lnot_bit_in_range.
  - intros a w0 H. exact H.
Qed.

(** X3: no method of the keyboard writes to the cursor or to the button
    of the mouse, whether the call returns or raises. *)
Theorem keyboard_keeps_mouse (w : World) :
  (forall key options, mouse (snd (run (kdown key options) w)) = mouse w) /\
  (forall key, mouse (snd (run (kup key) w)) = mouse w) /\
  (forall key options, mouse (snd (run (kpress key options) w)) = mouse w) /\
  (forall char, mouse (snd (run (Keyboard.sendCharacter char) w)) = mouse w) /\
  (forall text options, mouse (snd (run (ktype text options) w)) = mouse w).
Proof.
  apply (keyboard_invariant (fun w' => mouse w' = mouse w)); auto.
Qed.

(** X4: a key whose label is none of Alt, Control, Meta and Shift leaves
    the modifiers alone: after its [down], and after its [up] whether that
    succeeds or fails on an unpressed code, they are what they were. *)
Theorem other_keys_keep_modifiers (key : string) (def : Def.t) (options : Options)
    (w : World) :
  keyDefinitions !! key = Some def ->
  Def.truthy def = true ->
  let label := Description.key (describe def (_modifiers (keyboard w))) in
  label <> "Alt" -> label <> "Control" -> label <> "Meta" -> label <> "Shift" ->
  _modifiers (keyboard (snd (run (kdown key options) w))) = _modifiers (keyboard w) /\
  _modifiers (keyboard (snd (run (kup key) w))) = _modifiers (keyboard w).
Proof.
  intros Hdef Htruthy label HA HC HM HS.
  pose proof (resolve_describe key def w Hdef Htruthy) as Hres.
  assert (Hbit : Keyboard._modifierBit label = 0).
  { destruct (Z.eq_dec (Keyboard._modifierBit label) 0) as [E|N]; [exact E|].
    apply modifierBit_nonzero in N. intuition. }
  split.
  - rewrite (down_run _ _ _ _ _ Hres). cbn [snd after_down keyboard _modifiers].
    fold label. rewrite Hbit. apply Z.lor_0_r.
  - destruct (decide (Description.code (describe def (_modifiers (keyboard w)))
                      ∈ _pressedKeys (keyboard w))) as [Hin | Hnot].
    + rewrite (up_run _ _ _ _ Hres Hin). cbn [snd after_up keyboard _modifiers].
      fold label. rewrite Hbit. apply Z.land_m1_r.
    + rewrite (up_unpressed_run _ _ _ _ Hres Hnot). cbn [snd after_clear keyboard _modifiers].
      fold label. rewrite Hbit. apply Z.land_m1_r.
Qed.


(** X6: a second [down] of a key with no shifted label changes nothing in
    the keyboard: the modifiers and the pressed keys after two calls are
    those after one. *)
Theorem down_twice_same_keyboard (key : string) (def : Def.t) (options : Options)
    (w : World) :
  keyDefinitions !! key = Some def ->
  Def.truthy def = true ->
  get_truthy str_truthy (Def.shiftKey def) = None ->
  fst (run (kdown key options;; kdown key options) w) = Return tt /\
  keyboard (snd (run (kdown key options;; kdown key options) w))
  = keyboard (snd (run (kdown key options) w)).
Proof.
  intros Hdef Htruthy Hshift.
  rewrite run_bind.
  rewrite (down_run _ _ _ _ _ (resolve_describe key def w Hdef Htruthy)).
  rewrite (down_run _ _ _ _ _ (resolve_describe key def _ Hdef Htruthy)).
  split; [reflexivity|].
  cbn [snd after_down keyboard _modifiers _pressedKeys].
  rewrite !describe_code, !describe_key_unshifted by assumption.
  rewrite <- Z.lor_assoc, Z.lor_diag.
  f_equal. rewrite <- (assoc_L (∪)), (idemp_L (∪)). reflexivity.
Qed.

(** X7: while Alt, Control or Meta is held, that is while the modifiers
    have a bit besides Shift, [down] with no [text] option sends a
    [rawKeyDown] with empty text, whatever the key's entry says. *)
Theorem down_without_text_under_other_modifier (key : string) (def : Def.t)
    (options : Options) (w : World) :
  keyDefinitions !! key = Some def ->
  Def.truthy def = true ->
  opt_text options = None ->
  Z.land (_modifiers (keyboard w)) (Z.lnot 8) <> 0 ->
  let d := describe def (_modifiers (keyboard w)) in
  let modifiers := Z.lor (_modifiers (keyboard w)) (Keyboard._modifierBit (Description.key d)) in
  fst (run (kdown key options) w) = Return tt /\
  trace (snd (run (kdown key options) w))
  = (trace w ++
     [Send "Input.dispatchKeyEvent"
        [("type", VStr "rawKeyDown");
         ("modifiers", VInt modifiers);
         ("windowsVirtualKeyCode", VInt (Description.keyCode d));
         ("code", VStr (Description.code d));
         ("key", VStr (Description.key d));
         ("text", VStr "");
         ("unmodifiedText", VStr "");
         ("autoRepeat", VBool (bool_decide (Description.key d ∈ _pressedKeys (keyboard w))));
         ("location", VInt (Description.location d));
         ("isKeypad", VBool (Description.location d =? 3))]])%list.
Proof.
  intros Hdef Htruthy Htext Hother d modifiers.
  rewrite (down_run _ _ _ _ _ (resolve_describe key def w Hdef Htruthy)).
  split; [reflexivity|].
  assert (Hnone : Description.text d = "")
    by (apply describe_text_other_modifier; assumption).
  cbn [snd after_down trace]. fold d. rewrite Htext. cbn [default from_option id].
  rewrite Hnone. reflexivity.
Qed.

(** The loop of [type] when the table has no ["char"] entry and there
    is no delay. *)
Lemma type_loop_no_delay (l : list string) (w : World) :
  keyDefinitions !! "char" = None ->
  run (for_ l (fun char =>
         (if bool_decide (is_Some (keyDefinitions !! "char"))
          then kpress char (mkOptions None (Some 0) None None None)
          else Keyboard.sendCharacter char);;
         if int_truthy 0 then sleep_quotient 0 1000 else mret tt)) w
  = (Return tt,
     {| keyboard := keyboard w;
        mouse := mouse w;
        trace := trace w ++ (char_event (_modifiers (keyboard w)) <$> l) |}).
Proof.
  intros Hnone. rewrite Hnone.
  revert w. induction l as [|char l IH]; intros w.
  - cbn [for_ fmap list_fmap]. rewrite app_nil_r, world_eta. reflexivity.
  - cbn [for_]. rewrite run_bind.
    match goal with
    | |- context [run ?m w] =>
        assert (Hstep : run m w
                  = (Return tt,
                     {| keyboard := keyboard w;
                        mouse := mouse w;
                        trace := trace w ++ [char_event (_modifiers (keyboard w)) char] |}))
          by reflexivity;
        rewrite Hstep
    end.
    rewrite IH. cbn [keyboard mouse trace]. rewrite fmap_cons, <- app_assoc. reflexivity.
Qed.

(** X8: when the layout table has no ["char"] entry and the delay is
    absent or zero, [type] sends one [char] command per character, in
    order, and never sleeps; the keyboard state is as before. *)
Theorem type_without_delay (text : string) (options : Options) (w : World) :
  keyDefinitions !! "char" = None ->
  Keyboard.delay_of options = None ->
  run (ktype text options) w
  = (Return tt,
     {| keyboard := keyboard w;
        mouse := mouse w;
        trace := trace w ++ (char_event (_modifiers (keyboard w)) <$> Keyboard.chars text) |}) /\
  length (Keyboard.chars text) = String.length text.
Proof.
  intros Hnone Hdelay. split.
  - unfold Keyboard.type. rewrite Hdelay. apply type_loop_no_delay, Hnone.
  - unfold Keyboard.chars. rewrite length_fmap.
    induction text as [|c text IH]; cbn; [reflexivity | rewrite IH; reflexivity].
Qed.

(** X9: when the layout table has a ["char"] entry, [type] presses the
    characters as keys, so a text whose first character has no entry
    raises the unknown-key error at once, with nothing sent and nothing
    changed. *)
Theorem type_unknown_first_character (c : ascii) (rest : string) (options : Options)
    (w : World) :
  is_Some (keyDefinitions !! "char") ->
  keyDefinitions !! String c "" = None ->
  run (ktype (String c rest) options) w
  = (Raise (PyppeteerError ("Unknown key: " +:+ String c "")), w).
Proof.
  intros Hchar Hnone. unfold Keyboard.type, Keyboard.chars.
  cbn [list_ascii_of_string fmap list_fmap for_].
  rewrite bool_decide_eq_true_2 by assumption.
  apply run_bind_raise, run_bind_raise.
  unfold Keyboard.press. apply run_bind_raise, down_raise, resolve_unknown.
  rewrite Hnone. reflexivity.
Qed.





(** X11: the modifiers are shared with the mouse: a [Mouse.down] that
    follows the [down] of a key carries the modifiers with the bit of that
    key's label set. *)
Theorem key_down_stamps_mouse_down (key : string) (def : Def.t) (options mouse_options : Options)
    (w : World) :
  keyDefinitions !! key = Some def ->
  Def.truthy def = true ->
  let d := describe def (_modifiers (keyboard w)) in
  let bit := Keyboard._modifierBit (Description.key d) in
  let modifiers := Z.lor (_modifiers (keyboard w)) bit in
  run (kdown key options;; Mouse.down mouse_options) w
  = (Return tt, after_mouse_down mouse_options (after_down d options w)) /\
  last (trace (after_mouse_down mouse_options (after_down d options w)))
  = Some (button_event "mousePressed" (default "left" (opt_button mouse_options))
            (_x (mouse w)) (_y (mouse w)) modifiers (Mouse.clickCount_of mouse_options)) /\
  Z.land modifiers bit = bit.
Proof.
  intros Hdef Htruthy d bit modifiers.
  split; [|split].
  - rewrite run_bind, (down_run _ _ _ _ _ (resolve_describe key def w Hdef Htruthy)).
    reflexivity.
  - cbn [after_mouse_down trace]. rewrite last_snoc. reflexivity.
  - apply land_lor_same.
Qed.

(** X18: with no modifier held besides Shift, a key whose entry names no
    text of its own and whose label is one character long types that
    character: [down] with no [text] option sends a [keyDown] whose text
    is the label. *)
Theorem down_types_single_character_label (key : string) (def : Def.t) (options : Options)
    (w : World) :
  keyDefinitions !! key = Some def ->
  Def.truthy def = true ->
  Def.text def = None ->
  Def.shiftText def = None ->
  opt_text options = None ->
  Z.land (_modifiers (keyboard w)) (Z.lnot 8) = 0 ->
  let d := describe def (_modifiers (keyboard w)) in
  String.length (Description.key d) = 1%nat ->
  fst (run (kdown key options) w) = Return tt /\
  trace (snd (run (kdown key options) w))
  = (trace w ++
     [Send "Input.dispatchKeyEvent"
        [("type", VStr "keyDown");
         ("modifiers", VInt (_modifiers (keyboard w)));
         ("windowsVirtualKeyCode", VInt (Description.keyCode d));
         ("code", VStr (Description.code d));
         ("key", VStr (Description.key d));
         ("text", VStr (Description.key d));
         ("unmodifiedText", VStr (Description.key d));
         ("autoRepeat", VBool (bool_decide (Description.key d ∈ _pressedKeys (keyboard w))));
         ("location", VInt (Description.location d));
         ("isKeypad", VBool (Description.location d =? 3))]])%list.
Proof.
  intros Hdef Htruthy Htext Hshift Hopt Hother d Hlen.
  rewrite (down_run _ _ _ _ _ (resolve_describe key def w Hdef Htruthy)).
  split; [reflexivity|].
  assert (Hd : Description.text d = Description.key d).
  { unfold d in *. unfold describe in *. cbn [Description.text Description.key] in *.
    rewrite Hother, Htext, Hshift. cbn [int_truthy Z.eqb negb get_truthy].
    apply Nat.eqb_eq in Hlen. rewrite Hlen.
    destruct (int_truthy (Z.land (_modifiers (keyboard w)) 8)); reflexivity. }
  assert (Hbit : Keyboard._modifierBit (Description.key d) = 0).
  { destruct (Z.eq_dec (Keyboard._modifierBit (Description.key d)) 0) as [E|N]; [exact E|].
    apply modifierBit_nonzero in N.
    destruct N as [E | [E | [E | E]]]; rewrite E in Hlen; discriminate. }
  assert (Htr : str_truthy (Description.key d) = true).
  { destruct (Description.key d); [discriminate | reflexivity]. }
  cbn [snd after_down trace]. fold d. rewrite Hopt. cbn [default from_option id].
  rewrite Hd, Hbit, Htr, Z.lor_0_r. reflexivity.
Qed.

End KeyboardMore.

(** ** The mouse and the touchscreen, further *)

Lemma mouse_down_run (options : Options) (w : World) :
  run (Mouse.down options) w = (Return tt, after_mouse_down options w).
Proof. reflexivity. Qed.

Lemma mouse_up_run (options : Options) (w : World) :
  run (Mouse.up options) w = (Return tt, after_mouse_up options w).
Proof. reflexivity. Qed.

(** [move] is two writes to the cursor and then its loop. *)
Lemma move_run (x y : float) (options : Options) (w : World) :
  run (Mouse.move x y options) w
  = run (for_ (seqZ 1 (default 1 (opt_steps options)))
              (Mouse.move_step (_x (mouse w)) (_y (mouse w)) (default 1 (opt_steps options))))
        {| keyboard := keyboard w;
           mouse := mkMouse x y (_button (mouse w));
           trace := trace w |}.
Proof. reflexivity. Qed.

(** The one step of [move] without options. *)
Lemma move_one_step_run (x y : float) (w : World) :
  run (Mouse.move x y no_options) w
  = match Mouse.interpolate (_x (mouse w)) x 1 1, Mouse.interpolate (_y (mouse w)) y 1 1 with
    | Return px, Return py =>
        (Return tt,
         {| keyboard := keyboard w;
            mouse := mkMouse x y (_button (mouse w));
            trace := trace w ++
              [moved_event (_button (mouse w)) px py (_modifiers (keyboard w))] |})
    | Raise e, _ | Return _, Raise e =>
        (Raise e,
         {| keyboard := keyboard w;
            mouse := mkMouse x y (_button (mouse w));
            trace := trace w |})
    end.
Proof.
  rewrite move_run. change (default 1 (opt_steps no_options)) with 1.
  change (seqZ 1 1) with [1]. cbn [for_]. rewrite run_bind, move_step_run. cbn [keyboard mouse trace _x _y _button].
  destruct (Mouse.interpolate (_x (mouse w)) x 1 1);
    destruct (Mouse.interpolate (_y (mouse w)) y 1 1); reflexivity.
Qed.

(** A coordinate that is NaN or infinite cannot be reached in one step:
    the point to round is NaN or infinite too. *)
Lemma interpolate_not_finite (origin target : float) :
  PyFloat.is_finite target = false ->
  exists e, Mouse.interpolate origin target 1 1 = Raise e.
Proof.
  intros H. unfold Mouse.interpolate.
  rewrite int_true_div_diag by lia.
  destruct target as [s|s| |s m e]; try discriminate;
    destruct origin as [s'|s'| |s' m' e']; try destruct s; try destruct s';
    cbn; eauto.
Qed.

(** X12: [move] with [steps] zero or negative sends nothing and never
    fails, also for a NaN target: the loop has no step, and the cursor is
    at the target all the same. *)
Theorem move_without_steps (x y : float) (n : Z) (options : Options) (w : World) :
  opt_steps options = Some n ->
  n <= 0 ->
  run (Mouse.move x y options) w
  = (Return tt,
     {| keyboard := keyboard w;
        mouse := mkMouse x y (_button (mouse w));
        trace := trace w |}).
Proof.
  intros Hsteps Hn. rewrite move_run, Hsteps. cbn [default from_option id].
  rewrite seqZ_nil by assumption. reflexivity.
Qed.

(** X13: [Mouse.down] and then [Mouse.up] send a [mousePressed] and a
    [mouseReleased] at the cursor, which does not move; the pressed command
    names the button of the [down] options, the released one the button of
    the [up] options, each ["left"] by default, and the button held
    afterwards is ["none"].  The click count of each is its option, or 1
    when the option is absent or zero. *)
Theorem mouse_down_then_up (down_options up_options : Options) (w : World) :
  let x := _x (mouse w) in
  let y := _y (mouse w) in
  let m := _modifiers (keyboard w) in
  run (Mouse.down down_options;; Mouse.up up_options) w
  = (Return tt,
     {| keyboard := keyboard w;
        mouse := mkMouse x y "none";
        trace := trace w ++
          [button_event "mousePressed" (default "left" (opt_button down_options)) x y m
             (default 1 (get_truthy int_truthy (opt_clickCount down_options)));
           button_event "mouseReleased" (default "left" (opt_button up_options)) x y m
             (default 1 (get_truthy int_truthy (opt_clickCount up_options)))] |}).
Proof.
  intros x y m. rewrite run_bind, mouse_down_run, mouse_up_run.
  unfold after_mouse_up, after_mouse_down. cbn [keyboard mouse trace _x _y].
  rewrite <- app_assoc. reflexivity.
Qed.

(** X14: [click] at a target whose one step can be rounded sends, in
    order, one [mouseMoved] with the rounded coordinates and the button
    held before, one [mousePressed] and one [mouseReleased] with the
    target's own float coordinates, and between these two it sleeps for
    [delay] seconds, not divided by 1000, when the delay is truthy.  The
    cursor ends at the target with no button held. *)
Theorem click_sends_move_press_release (x y : float) (options : Options) (px py : Z)
    (w : World) :
  Mouse.interpolate (_x (mouse w)) x 1 1 = Return px ->
  Mouse.interpolate (_y (mouse w)) y 1 1 = Return py ->
  let m := _modifiers (keyboard w) in
  let button := default "left" (opt_button options) in
  let count := Mouse.clickCount_of options in
  run (Mouse.click x y options) w
  = (Return tt,
     {| keyboard := keyboard w;
        mouse := mkMouse x y "none";
        trace := trace w ++
          [moved_event (_button (mouse w)) px py m;
           button_event "mousePressed" button x y m count] ++
          match get_truthy int_truthy (opt_delay options) with
          | Some delay => [Sleep delay 1]
          | None => []
          end ++
          [button_event "mouseReleased" button x y m count] |}).
Proof.
  intros Hx Hy m button count. unfold Mouse.click.
  rewrite run_bind, move_one_step_run, Hx, Hy.
  rewrite run_bind, mouse_down_run, run_bind.
  destruct (get_truthy int_truthy (opt_delay options)) as [delay|].
  - change (run (sleep delay 1) ?w0)
      with (Return tt, {| keyboard := keyboard w0; mouse := mouse w0;
                          trace := trace w0 ++ [Sleep delay 1] |}).
    cbv iota beta. rewrite mouse_up_run.
    unfold after_mouse_up, after_mouse_down. cbn [keyboard mouse trace _x _y _button].
    rewrite <- !app_assoc. reflexivity.
  - change (run (mret tt) ?w0) with (Return tt, w0).
    cbv iota beta. rewrite mouse_up_run.
    unfold after_mouse_up, after_mouse_down. cbn [keyboard mouse trace _x _y _button].
    rewrite <- !app_assoc. reflexivity.
Qed.

(** X15: [click] at a target with a NaN or infinite coordinate raises in
    its [move], before anything is sent and before any button is pressed;
    the cursor has been set to the target by then. *)
Theorem click_not_finite_raises (x y : float) (options : Options) (w : World) :
  PyFloat.is_finite x = false \/ PyFloat.is_finite y = false ->
  exists e,
    run (Mouse.click x y options) w
    = (Raise e,
       {| keyboard := keyboard w;
          mouse := mkMouse x y (_button (mouse w));
          trace := trace w |}).
Proof.
  intros H. unfold Mouse.click. rewrite run_bind, move_one_step_run.
  destruct (Mouse.interpolate (_x (mouse w)) x 1 1) as [px|e] eqn:Hx; [|eauto].
  destruct (Mouse.interpolate (_y (mouse w)) y 1 1) as [py|e] eqn:Hy; [|eauto].
  destruct H as [H | H].
  - destruct (interpolate_not_finite (_x (mouse w)) x H) as [e He]. congruence.
  - destruct (interpolate_not_finite (_y (mouse w)) y H) as [e He]. congruence.
Qed.

(** X16: [tap] at a NaN or infinite coordinate raises before anything is
    sent; the world is as before. *)
Theorem tap_not_finite_raises (x y : float) (w : World) :
  PyFloat.is_finite x = false \/ PyFloat.is_finite y = false ->
  exists e, run (Touchscreen.tap x y) w = (Raise e, w).
Proof.
  intros H. unfold Touchscreen.tap. py_unfold.
  destruct x as [s|s| |s m e], y as [s'|s'| |s' m' e']; cbn in *;
    destruct H; try discriminate; eauto.
Qed.

(** X17: no method of the mouse or of the touchscreen writes to the
    keyboard: the modifiers and the pressed keys after [move], [down],
    [up], [click] and [tap] are those from before, whether the call
    returns or raises. *)
Theorem pointer_keeps_keyboard (x y : float) (options : Options) (w : World) :
  keyboard (snd (run (Mouse.move x y options) w)) = keyboard w /\
  keyboard (snd (run (Mouse.down options) w)) = keyboard w /\
  keyboard (snd (run (Mouse.up options) w)) = keyboard w /\
  keyboard (snd (run (Mouse.click x y options) w)) = keyboard w /\
  keyboard (snd (run (Touchscreen.tap x y) w)) = keyboard w.
Proof.
  split; [|split; [|split; [|split]]].
  - rewrite move_run.
    exact (proj1 (move_loop_state _ _ _ _ _)).
  - reflexivity.
  - reflexivity.
  - unfold Mouse.click. rewrite run_bind, move_one_step_run.
    destruct (Mouse.interpolate (_x (mouse w)) x 1 1) as [px|e]; [|reflexivity].
    destruct (Mouse.interpolate (_y (mouse w)) y 1 1) as [py|e]; [|reflexivity].
    rewrite run_bind, mouse_down_run, run_bind.
    destruct (get_truthy int_truthy (opt_delay options)); reflexivity.
  - unfold Touchscreen.tap. py_unfold.
    destruct (round x); [|reflexivity]. destruct (round y); reflexivity.
Qed.

(** ** Further runs on the sample layouts *)

Lemma shift_press_in_range :
  modifiers_in_range init /\
  modifiers_in_range (snd (run (Keyboard.down us_layout "Shift" no_options) init)) /\
  modifiers_in_range (snd (run (Keyboard.type us_layout "Hi" no_options) init)).
Proof.
  assert (Hinit : modifiers_in_range init) by (unfold modifiers_in_range; cbn; lia).
  destruct (keyboard_keeps_modifiers_in_range us_layout init Hinit)
    as (Hdown & _ & _ & _ & Htype).
  split; [exact Hinit|]. split; [apply Hdown | apply Htype].
Defined.

Lemma a_keeps_modifiers :
  us_layout !! "a" = Some (us_entry 65 "a" "KeyA" None) /\
  _modifiers (keyboard (snd (run (Keyboard.down us_layout "a" no_options) init))) = 0 /\
  _modifiers (keyboard (snd (run (Keyboard.up us_layout "a") init))) = 0.
Proof.
  assert (Hdef : us_layout !! "a" = Some (us_entry 65 "a" "KeyA" None))
    by (vm_compute; reflexivity).
  split; [exact Hdef|].
  apply (other_keys_keep_modifiers us_layout "a" _ no_options init Hdef eq_refl);
    vm_compute; discriminate.
Defined.


Lemma shift_down_twice :
  us_layout !! "Shift" = Some (us_entry 16 "Shift" "ShiftLeft" (Some 1)) /\
  keyboard (snd (run (Keyboard.down us_layout "Shift" no_options;;
                      Keyboard.down us_layout "Shift" no_options) init))
  = keyboard (snd (run (Keyboard.down us_layout "Shift" no_options) init)).
Proof.
  assert (Hdef : us_layout !! "Shift" = Some (us_entry 16 "Shift" "ShiftLeft" (Some 1)))
    by (vm_compute; reflexivity).
  split; [exact Hdef|].
  exact (proj2 (down_twice_same_keyboard us_layout "Shift" _ no_options init
                  Hdef eq_refl eq_refl)).
Defined.

Lemma a_under_alt_has_no_text :
  let w := snd (run (Keyboard.down us_layout "Alt" no_options) init) in
  us_layout !! "a" = Some (us_entry 65 "a" "KeyA" None) /\
  Z.land (_modifiers (keyboard w)) (Z.lnot 8) <> 0 /\
  last (trace (snd (run (Keyboard.down us_layout "a" no_options) w)))
  = Some (Send "Input.dispatchKeyEvent"
            [("type", VStr "rawKeyDown"); ("modifiers", VInt 1);
             ("windowsVirtualKeyCode", VInt 65); ("code", VStr "KeyA");
             ("key", VStr "a"); ("text", VStr ""); ("unmodifiedText", VStr "");
             ("autoRepeat", VBool false); ("location", VInt 0);
             ("isKeypad", VBool false)]).
Proof.
  intros w.
  assert (Hdef : us_layout !! "a" = Some (us_entry 65 "a" "KeyA" None))
    by (vm_compute; reflexivity).
  assert (Hother : Z.land (_modifiers (keyboard w)) (Z.lnot 8) <> 0)
    by (vm_compute; discriminate).
  split; [exact Hdef|]. split; [exact Hother|].
  destruct (down_without_text_under_other_modifier us_layout "a" _ no_options w
              Hdef eq_refl eq_refl Hother) as (_ & Htrace).
  rewrite Htrace, last_snoc. vm_compute. reflexivity.
Defined.

Lemma type_Hi_without_delay :
  us_layout !! "char" = None /\
  run (Keyboard.type us_layout "Hi" no_options) init
  = (Return tt,
     {| keyboard := keyboard init;
        mouse := mouse init;
        trace := [char_event 0 "H"; char_event 0 "i"] |}).
Proof.
  assert (Hnone : us_layout !! "char" = None) by (vm_compute; reflexivity).
  split; [exact Hnone|].
  exact (proj1 (type_without_delay us_layout "Hi" no_options init Hnone eq_refl)).
Defined.

Lemma type_question_mark_raises :
  is_Some (generic_layout !! "char") /\
  generic_layout !! "?" = None /\
  run (Keyboard.type generic_layout "?a" no_options) init
  = (Raise (PyppeteerError "Unknown key: ?"), init).
Proof.
  assert (Hchar : is_Some (generic_layout !! "char")) by (vm_compute; eauto).
  assert (Hnone : generic_layout !! "?" = None) by (vm_compute; reflexivity).
  split; [exact Hchar|]. split; [exact Hnone|].
  exact (type_unknown_first_character generic_layout "?"%char "a" no_options init
           Hchar Hnone).
Defined.


Lemma shift_stamps_mouse_down :
  us_layout !! "Shift" = Some (us_entry 16 "Shift" "ShiftLeft" (Some 1)) /\
  last (trace (snd (run (Keyboard.down us_layout "Shift" no_options;;
                         Mouse.down no_options) init)))
  = Some (button_event "mousePressed" "left" PyFloat.zero PyFloat.zero 8 1).
Proof.
  assert (Hdef : us_layout !! "Shift" = Some (us_entry 16 "Shift" "ShiftLeft" (Some 1)))
    by (vm_compute; reflexivity).
  split; [exact Hdef|].
  destruct (key_down_stamps_mouse_down us_layout "Shift" _ no_options no_options init
              Hdef eq_refl) as (Hrun & Hlast & _).
  rewrite Hrun. cbn [snd]. rewrite Hlast. vm_compute. reflexivity.
Defined.

Lemma move_zero_steps_to_nan :
  0 <= 0 /\
  run (Mouse.move PyFloat.nan PyFloat.zero (mkOptions None None (Some 0) None None)) init
  = (Return tt,
     {| keyboard := keyboard init;
        mouse := mkMouse PyFloat.nan PyFloat.zero "none";
        trace := [] |}).
Proof.
  split; [lia|].
  exact (move_without_steps PyFloat.nan PyFloat.zero 0
           (mkOptions None None (Some 0) None None) init eq_refl ltac:(lia)).
Defined.

Lemma click_with_delay :
  let x := PyFloat.of_Z 3 in
  let y := S754_finite false 5 (-1) in
  let options := mkOptions None (Some 2) None (Some "right") None in
  Mouse.interpolate (_x (mouse init)) x 1 1 = Return 3 /\
  Mouse.interpolate (_y (mouse init)) y 1 1 = Return 2 /\
  run (Mouse.click x y options) init
  = (Return tt,
     {| keyboard := keyboard init;
        mouse := mkMouse x y "none";
        trace := [moved_event "none" 3 2 0;
                  button_event "mousePressed" "right" x y 0 1;
                  Sleep 2 1;
                  button_event "mouseReleased" "right" x y 0 1] |}).
Proof.
  intros x y options.
  assert (Hx : Mouse.interpolate (_x (mouse init)) x 1 1 = Return 3)
    by (vm_compute; reflexivity).
  assert (Hy : Mouse.interpolate (_y (mouse init)) y 1 1 = Return 2)
    by (vm_compute; reflexivity).
  split; [exact Hx|]. split; [exact Hy|].
  exact (click_sends_move_press_release x y options 3 2 init Hx Hy).
Defined.

Lemma click_at_nan :
  PyFloat.is_finite PyFloat.nan = false /\
  exists e, run (Mouse.click PyFloat.nan PyFloat.zero no_options) init
            = (Raise e,
               {| keyboard := keyboard init;
                  mouse := mkMouse PyFloat.nan PyFloat.zero "none";
                  trace := [] |}).
Proof.
  split; [reflexivity|].
  exact (click_not_finite_raises PyFloat.nan PyFloat.zero no_options init
           (or_introl eq_refl)).
Defined.

Lemma tap_at_infinity :
  PyFloat.is_finite (S754_infinity false) = false /\
  exists e, run (Touchscreen.tap PyFloat.zero (S754_infinity false)) init = (Raise e, init).
Proof.
  split; [reflexivity|].
  exact (tap_not_finite_raises PyFloat.zero (S754_infinity false) init (or_intror eq_refl)).
Defined.

Lemma down_a_types_a :
  us_layout !! "a" = Some (us_entry 65 "a" "KeyA" None) /\
  trace (snd (run (Keyboard.down us_layout "a" no_options) init))
  = [Send "Input.dispatchKeyEvent"
       [("type", VStr "keyDown"); ("modifiers", VInt 0);
        ("windowsVirtualKeyCode", VInt 65); ("code", VStr "KeyA");
        ("key", VStr "a"); ("text", VStr "a"); ("unmodifiedText", VStr "a");
        ("autoRepeat", VBool false); ("location", VInt 0);
        ("isKeypad", VBool false)]].
Proof.
  assert (Hdef : us_layout !! "a" = Some (us_entry 65 "a" "KeyA" None))
    by (vm_compute; reflexivity).
  split; [exact Hdef|].
  destruct (down_types_single_character_label us_layout "a" _ no_options init
              Hdef eq_refl eq_refl eq_refl eq_refl eq_refl eq_refl) as (_ & Htrace).
  rewrite Htrace. vm_compute. reflexivity.
Defined.
